(** * fbmessenger: the message envelope model of models.go

    A shallow embedding of the Go package [fbmessenger] (file models.go):
    the Send API structures with their constructors and fluent mutators,
    the webhook structures, and the JSON documents that the struct tags
    describe.

    Conventions of the embedding.
    - A Go [string] is a [string]; the zero value, the empty string, is what
      the package (and every [omitempty] tag) treats as an absent field.
    - A Go [int] is a [Z] inside [int_ok] (64-bit platforms).
    - A pointer to a structure that the package never writes through
      ([*Attachment], [*Button], [*Entry], ...) is an [option]: [None] is the
      nil pointer.
    - A [*SendRequest] is a location in a heap of requests, because the
      fluent methods write through their receiver and hand it back.
    - A slice is a [slice]: Go tells the nil slice from the empty one, and
      so does the JSON encoding ([null] against an empty array).
    - A Go [string] is any sequence of bytes; a JSON document only carries
      text, so what the encoder of encoding/json does to bytes that are
      not UTF-8 is written out ([utf8_coerce]). *)

From stdpp Require Import base option list gmap strings.
From Stdlib Require Import ZArith Lia Ascii.

Local Open Scope string_scope.
Local Open Scope Z_scope.

(** ** Go values *)

Inductive slice (A : Type) : Type :=
| NilSlice
| Slice (l : list A).

Arguments NilSlice {A}.
Arguments Slice {A} l.

Definition elems {A : Type} (s : slice A) : list A :=
  match s with
  | NilSlice => []
  | Slice l => l
  end.

(** What a call [f(x1, ..., xn)] of a variadic function passes for its
    last parameter: nil when no argument is given, else a new slice. *)
Definition variadic {A : Type} (args : list A) : slice A :=
  match args with
  | [] => NilSlice
  | _ :: _ => Slice args
  end.

Definition int_ok (n : Z) : Prop := - 2 ^ 63 <= n < 2 ^ 63.

Definition int_okb (n : Z) : bool := (- 2 ^ 63 <=? n) && (n <? 2 ^ 63).

(** ** Strings as text

    The encoder of encoding/json writes a Go string as text: it reads the
    string rune by rune and writes U+FFFD for every byte at which no
    well-formed UTF-8 encoding starts (utf8.DecodeRuneInString giving
    RuneError with size 1), going on at the next byte. [rune_size] and
    [second_ok] are the table of the utf8 package: the length a first byte
    announces and the range it allows for the second byte. *)

Definition byte_in (lo hi : N) (c : ascii) : bool :=
  (lo <=? N_of_ascii c)%N && (N_of_ascii c <=? hi)%N.

Definition rune_size (c0 : ascii) : nat :=
  if byte_in 0x00 0x7F c0 then 1
  else if byte_in 0xC2 0xDF c0 then 2
  else if byte_in 0xE0 0xEF c0 then 3
  else if byte_in 0xF0 0xF4 c0 then 4
  else 0.

Definition second_ok (c0 c1 : ascii) : bool :=
  if byte_in 0xE0 0xE0 c0 then byte_in 0xA0 0xBF c1
  else if byte_in 0xED 0xED c0 then byte_in 0x80 0x9F c1
  else if byte_in 0xF0 0xF0 c0 then byte_in 0x90 0xBF c1
  else if byte_in 0xF4 0xF4 c0 then byte_in 0x80 0x8F c1
  else byte_in 0x80 0xBF c1.

Definition continuation (c : ascii) : bool := byte_in 0x80 0xBF c.

(** The number of bytes of the well-formed encoding at the head of [s];
    0 when there is none. *)
Definition rune_at (s : string) : nat :=
  match s with
  | String c0 rest =>
      match rune_size c0, rest with
      | 1%nat, _ => 1
      | 2%nat, String c1 _ => if second_ok c0 c1 then 2 else 0
      | 3%nat, String c1 (String c2 _) =>
          if second_ok c0 c1 && continuation c2 then 3 else 0
      | 4%nat, String c1 (String c2 (String c3 _)) =>
          if second_ok c0 c1 && continuation c2 && continuation c3 then 4 else 0
      | _, _ => 0
      end
  | EmptyString => 0
  end%nat.

(** U+FFFD, as the bytes EF BF BD. *)
Definition replacement_rune : string :=
  String (ascii_of_N 0xEF)
    (String (ascii_of_N 0xBF) (String (ascii_of_N 0xBD) EmptyString)).

(** [inside] counts the bytes still to copy of the encoding being read. *)
Fixpoint utf8_coerce_from (inside : nat) (s : string) : string :=
  match s with
  | EmptyString => EmptyString
  | String c rest =>
      match inside with
      | S k => String c (utf8_coerce_from k rest)
      | O =>
          match rune_at s with
          | O => replacement_rune +:+ utf8_coerce_from 0 rest
          | S k => String c (utf8_coerce_from k rest)
          end
      end
  end.

Definition utf8_coerce (s : string) : string := utf8_coerce_from 0 s.

(** A string is valid UTF-8 (utf8.ValidString) when nothing in it has to
    be replaced. *)
Definition utf8_valid (s : string) : bool := bool_decide (utf8_coerce s = s).

(** ** Send API structures *)

Module Recipient.
Record t : Type := mk { Id : string; PhoneNumber : string }.
Definition zero : t := mk "" "".
End Recipient.

Module Button.
Record t : Type := mk {
  Type_ : string;
  Title : string;
  Url : string;
  Payload : string
}.
End Button.

Module MediaPayload.
Record t : Type := mk { Url : string }.
End MediaPayload.

Module ButtonPayload.
Record t : Type := mk {
  TemplateType : string;
  Text : string;
  Buttons : slice (option Button.t)
}.
End ButtonPayload.

(** [Attachment.Payload] has type [interface{}]; the package stores a
    [MediaPayload] or a [ButtonPayload] in it, and the zero value is nil. *)
Inductive payload : Type :=
| PayloadNil
| PayloadMedia (p : MediaPayload.t)
| PayloadButton (p : ButtonPayload.t).

Module Attachment.
Record t : Type := mk { Type_ : string; Payload : payload }.
End Attachment.

Module Message.
Record t : Type := mk { Text : string; Attachment : option Attachment.t }.
Definition zero : t := mk "" None.
End Message.

Module SendRequest.
Record t : Type := mk {
  Recipient : Recipient.t;
  Message : Message.t;
  NotificationType : string
}.
Definition zero : t := mk Recipient.zero Message.zero "".

Definition set_Recipient (r : Recipient.t) (sr : t) : t :=
  mk r (Message sr) (NotificationType sr).

Definition set_NotificationType (n : string) (sr : t) : t :=
  mk (Recipient sr) (Message sr) n.
End SendRequest.

Module SendError.
Record t : Type := mk {
  Message : string;
  Type_ : string;
  Code : Z;
  ErrorData : string;
  FBTraceId : string
}.
End SendError.

Module SendResponse.
Record t : Type := mk {
  RecipientId : string;
  MessageId : string;
  Error : option SendError.t
}.
End SendResponse.

(** ** Webhook structures *)

Module Principal.
Record t : Type := mk { Id : string }.
Definition zero : t := mk "".
End Principal.

Module CallbackAttachmentPayload.
Record t : Type := mk { Url : string }.
Definition zero : t := mk "".
End CallbackAttachmentPayload.

Module CallbackAttachment.
Record t : Type := mk { Type_ : string; Payload : CallbackAttachmentPayload.t }.
End CallbackAttachment.

Module CallbackMessage.
Record t : Type := mk {
  MessageId : string;
  Sequence : Z;
  Text : string;
  Attachments : slice (option CallbackAttachment.t)
}.
End CallbackMessage.

Module Delivery.
Record t : Type := mk {
  MessageIds : slice string;
  Watermark : Z;
  Sequence : Z
}.
End Delivery.

Module Postback.
Record t : Type := mk { Payload : string }.
End Postback.

Module OptIn.
Record t : Type := mk { Ref : string }.
End OptIn.

Module MessagingEntry.
Record t : Type := mk {
  Sender : Principal.t;
  Recipient : Principal.t;
  Timestamp : Z;
  Message : option CallbackMessage.t;
  Delivery : option Delivery.t;
  Postback : option Postback.t;
  OptIn : option OptIn.t
}.
End MessagingEntry.

Module Entry.
Record t : Type := mk {
  PageId : string;
  Time : Z;
  Messaging : slice (option MessagingEntry.t)
}.
End Entry.

Module Callback.
Record t : Type := mk {
  Object : string;
  Entries : slice (option Entry.t)
}.
End Callback.

(** ** User profile (models.go, lines 273 to 280) *)

Module UserProfile.
Record t : Type := mk {
  FirstName : string;
  LastName : string;
  ProfilePhotoUrl : string;
  Locale : string;
  Timezone : Z;
  Gender : string
}.
Definition zero : t := mk "" "" "" "" 0 "".
End UserProfile.

(** ** The heap of send requests

    [&SendRequest{...}] allocates, a method with receiver [sr *SendRequest]
    reads and writes the request [sr] points to. A computation takes the
    heap and either finishes with a value and the new heap or panics (a
    nil receiver is dereferenced). *)

Definition loc : Type := positive.

Inductive ptr : Type :=
| null
| at_loc (l : loc).

Arguments at_loc l%_positive.

Inductive outcome (A : Type) : Type :=
| Done (a : A) (h : gmap loc SendRequest.t)
| Panic.

Arguments Done {A} a h.
Arguments Panic {A}.

Definition go (A : Type) : Type := gmap loc SendRequest.t → outcome A.

Global Instance go_ret : MRet go := λ A a h, Done a h.

Global Instance go_bind : MBind go := λ A B k m h,
  match m h with
  | Done a h' => k a h'
  | Panic => Panic
  end.

(** [&SendRequest{...}] *)
Definition new (v : SendRequest.t) : go ptr :=
  λ h, let l := fresh (dom h) in Done (at_loc l) (<[l := v]> h).

(** [sr.f = v], through the pointer [sr] *)
Definition assign (sr : ptr) (upd : SendRequest.t → SendRequest.t) : go unit :=
  λ h, match sr with
       | null => Panic
       | at_loc l =>
           match h !! l with
           | Some v => Done tt (<[l := upd v]> h)
           | None => Panic
           end
       end.

(** ** Constructors (models.go, lines 8 to 46) *)

Definition TextMessage (text : string) : go ptr :=
  new (SendRequest.mk Recipient.zero
         (Message.mk text None)
         "").

Definition ImageMessage (url : string) : go ptr :=
  new (SendRequest.mk Recipient.zero
         (Message.mk ""
            (Some (Attachment.mk "image"
                     (PayloadMedia (MediaPayload.mk url)))))
         "").

Definition ButtonTemplateMessage (text : string)
    (buttons : slice (option Button.t)) : go ptr :=
  new (SendRequest.mk Recipient.zero
         (Message.mk ""
            (Some (Attachment.mk "template"
                     (PayloadButton (ButtonPayload.mk "button" text buttons)))))
         "").

(** ** Fluent mutators (models.go, lines 50 to 85) *)

Definition To (sr : ptr) (userId : string) : go ptr :=
  assign sr (SendRequest.set_Recipient (Recipient.mk userId "")) ;;
  mret sr.

Definition ToPhoneNumber (sr : ptr) (phoneNumber : string) : go ptr :=
  assign sr (SendRequest.set_Recipient (Recipient.mk "" phoneNumber)) ;;
  mret sr.

Definition Regular (sr : ptr) : go ptr :=
  assign sr (SendRequest.set_NotificationType "REGULAR") ;;
  mret sr.

Definition SilentPush (sr : ptr) : go ptr :=
  assign sr (SendRequest.set_NotificationType "SILENT_PUSH") ;;
  mret sr.

Definition NoPush (sr : ptr) : go ptr :=
  assign sr (SendRequest.set_NotificationType "NO_PUSH") ;;
  mret sr.

(** ** JSON documents

    The wire format of the spec, section 6, is JSON. A document is kept as
    its tree; members of an object are kept in the order they are written.
    The numbers of this package are all Go [int]s, so a number is an
    integer literal. *)

Unset Elimination Schemes.
Inductive json : Type :=
| JNull
| JBool (b : bool)
| JNumber (n : Z)
| JString (s : string)
| JArray (items : list json)
| JObject (members : list (string * json)).
Set Elimination Schemes.

(** The value a decoder ends up with for [key]: it walks the members in
    the order they are written and stores each one in its field, so of
    several members under the same key the last one stays. *)
Fixpoint member (key : string) (ms : list (string * json)) : option json :=
  match ms with
  | [] => None
  | (k, v) :: rest =>
      match member key rest with
      | Some v' => Some v'
      | None => if decide (k = key) then Some v else None
      end
  end.

(** A document all of whose strings and keys are valid UTF-8, as is every
    document that was read from the wire. *)
Fixpoint json_utf8 (j : json) : bool :=
  match j with
  | JNull | JBool _ | JNumber _ => true
  | JString s => utf8_valid s
  | JArray items => forallb json_utf8 items
  | JObject ms =>
      forallb (λ kv, let '(k, v) := kv in utf8_valid k && json_utf8 v) ms
  end.

(** *** Encoding, by the [json] struct tags

    Modelled from the spec: the repository has no encoder of its own; the
    records are written to the wire shapes of section 6, which are the
    [json:"..."] tags of models.go: one member per field under the tag's
    key, in declaration order; a field tagged [omitempty] is left out when
    it holds its zero value; a nil pointer, nil interface or nil slice is
    [null]. *)

Definition omitempty_string (key s : string) : list (string * json) :=
  if decide (s = "") then [] else [(key, JString s)].

Definition omitempty_ptr {A : Type} (key : string) (enc : A → json)
    (p : option A) : list (string * json) :=
  match p with
  | None => []
  | Some a => [(key, enc a)]
  end.

Definition marshal_ptr {A : Type} (enc : A → json) (p : option A) : json :=
  match p with
  | None => JNull
  | Some a => enc a
  end.

Definition marshal_slice {A : Type} (enc : A → json) (s : slice A) : json :=
  match s with
  | NilSlice => JNull
  | Slice l => JArray (map enc l)
  end.

Definition marshal_Recipient (r : Recipient.t) : json :=
  JObject (omitempty_string "id" (Recipient.Id r)
           ++ omitempty_string "phone_number" (Recipient.PhoneNumber r)).

Definition marshal_Button (b : Button.t) : json :=
  JObject ([("type", JString (Button.Type_ b));
            ("title", JString (Button.Title b))]
           ++ omitempty_string "url" (Button.Url b)
           ++ omitempty_string "payload" (Button.Payload b)).

Definition marshal_MediaPayload (p : MediaPayload.t) : json :=
  JObject [("url", JString (MediaPayload.Url p))].

Definition marshal_ButtonPayload (p : ButtonPayload.t) : json :=
  JObject [("template_type", JString (ButtonPayload.TemplateType p));
           ("text", JString (ButtonPayload.Text p));
           ("buttons",
            marshal_slice (marshal_ptr marshal_Button) (ButtonPayload.Buttons p))].

Definition marshal_payload (p : payload) : json :=
  match p with
  | PayloadNil => JNull
  | PayloadMedia m => marshal_MediaPayload m
  | PayloadButton b => marshal_ButtonPayload b
  end.

Definition marshal_Attachment (a : Attachment.t) : json :=
  JObject [("type", JString (Attachment.Type_ a));
           ("payload", marshal_payload (Attachment.Payload a))].

Definition marshal_Message (m : Message.t) : json :=
  JObject (omitempty_string "text" (Message.Text m)
           ++ omitempty_ptr "attachment" marshal_Attachment (Message.Attachment m)).

(** Modelled from the spec: the encoder of a [SendRequest] is not in the
    repository; this is the wire shape of section 6,
    [{recipient: {id?, phone_number?}, message: {text?, attachment?: {type,
    payload}}, notification_type?}], with the keys of the struct tags.
    Strings are carried as they are, which is what the encoder of
    encoding/json does with valid UTF-8 ([json_utf8] of the document). *)
Definition marshal_SendRequest (sr : SendRequest.t) : json :=
  JObject ([("recipient", marshal_Recipient (SendRequest.Recipient sr));
            ("message", marshal_Message (SendRequest.Message sr))]
           ++ omitempty_string "notification_type" (SendRequest.NotificationType sr)).

Definition marshal_Principal (p : Principal.t) : json :=
  JObject [("id", JString (Principal.Id p))].

Definition marshal_CallbackAttachmentPayload
    (p : CallbackAttachmentPayload.t) : json :=
  JObject [("url", JString (CallbackAttachmentPayload.Url p))].

Definition marshal_CallbackAttachment (a : CallbackAttachment.t) : json :=
  JObject [("type", JString (CallbackAttachment.Type_ a));
           ("payload",
            marshal_CallbackAttachmentPayload (CallbackAttachment.Payload a))].

Definition marshal_CallbackMessage (m : CallbackMessage.t) : json :=
  JObject [("mid", JString (CallbackMessage.MessageId m));
           ("seq", JNumber (CallbackMessage.Sequence m));
           ("text", JString (CallbackMessage.Text m));
           ("attachments",
            marshal_slice (marshal_ptr marshal_CallbackAttachment)
              (CallbackMessage.Attachments m))].

Definition marshal_Delivery (d : Delivery.t) : json :=
  JObject [("mids", marshal_slice JString (Delivery.MessageIds d));
           ("watermark", JNumber (Delivery.Watermark d));
           ("seq", JNumber (Delivery.Sequence d))].

Definition marshal_Postback (p : Postback.t) : json :=
  JObject [("payload", JString (Postback.Payload p))].

Definition marshal_OptIn (o : OptIn.t) : json :=
  JObject [("ref", JString (OptIn.Ref o))].

Definition marshal_MessagingEntry (e : MessagingEntry.t) : json :=
  JObject [("sender", marshal_Principal (MessagingEntry.Sender e));
           ("recipient", marshal_Principal (MessagingEntry.Recipient e));
           ("timestamp", JNumber (MessagingEntry.Timestamp e));
           ("message", marshal_ptr marshal_CallbackMessage (MessagingEntry.Message e));
           ("delivery", marshal_ptr marshal_Delivery (MessagingEntry.Delivery e));
           ("postback", marshal_ptr marshal_Postback (MessagingEntry.Postback e));
           ("optin", marshal_ptr marshal_OptIn (MessagingEntry.OptIn e))].

Definition marshal_Entry (e : Entry.t) : json :=
  JObject [("id", JString (Entry.PageId e));
           ("time", JNumber (Entry.Time e));
           ("messaging",
            marshal_slice (marshal_ptr marshal_MessagingEntry) (Entry.Messaging e))].

(** Modelled from the spec: the encoder of a [Callback] is not in the
    repository; this is the wire shape of section 6,
    [{object, entry: [{id, time, messaging: [...]}]}], with the keys of the
    struct tags. *)
Definition marshal_Callback (c : Callback.t) : json :=
  JObject [("object", JString (Callback.Object c));
           ("entry", marshal_slice (marshal_ptr marshal_Entry) (Callback.Entries c))].

(** What the encoder of encoding/json writes for a [SendError] and a
    [SendResponse] by their tags (models.go, lines 150 to 167): no field is
    [omitempty], so a nil [Error] is written as [null]; every string is
    written as text ([utf8_coerce]). *)
Definition marshal_SendError (e : SendError.t) : json :=
  JObject [("message", JString (utf8_coerce (SendError.Message e)));
           ("type", JString (utf8_coerce (SendError.Type_ e)));
           ("code", JNumber (SendError.Code e));
           ("error_data", JString (utf8_coerce (SendError.ErrorData e)));
           ("fbtrace_id", JString (utf8_coerce (SendError.FBTraceId e)))].

Definition marshal_SendResponse (r : SendResponse.t) : json :=
  JObject [("recipient_id", JString (utf8_coerce (SendResponse.RecipientId r)));
           ("message_id", JString (utf8_coerce (SendResponse.MessageId r)));
           ("error", marshal_ptr marshal_SendError (SendResponse.Error r))].

(** What the encoder of encoding/json writes for a [UserProfile] by its
    tags (models.go, lines 273 to 280); every string is written as text
    ([utf8_coerce]). *)
Definition marshal_UserProfile (u : UserProfile.t) : json :=
  JObject [("first_name", JString (utf8_coerce (UserProfile.FirstName u)));
           ("last_name", JString (utf8_coerce (UserProfile.LastName u)));
           ("profile_pic", JString (utf8_coerce (UserProfile.ProfilePhotoUrl u)));
           ("locale", JString (utf8_coerce (UserProfile.Locale u)));
           ("timezone", JNumber (UserProfile.Timezone u));
           ("gender", JString (utf8_coerce (UserProfile.Gender u)))].

(** *** Decoding, by the [json] struct tags

    Modelled from the spec: the repository has no decoder of its own; a
    document is read into a fresh (zero) record by the keys of the struct
    tags. A key that is missing, or whose value is [null], leaves the field
    at its zero value; a value of the wrong JSON kind, or a number outside
    [int], is a type error; members under other keys are skipped. Keys
    are compared as they are written in the tags. The [binding:"required"]
    markers play no part in decoding (spec, sections 4.1 and 8). *)

Inductive decoded (A : Type) : Type :=
| Decoded (a : A)
| UnmarshalTypeError (field : string).

Arguments Decoded {A} a.
Arguments UnmarshalTypeError {A} field.

Global Instance decoded_ret : MRet decoded := λ A a, Decoded a.

Global Instance decoded_bind : MBind decoded := λ A B k m,
  match m with
  | Decoded a => k a
  | UnmarshalTypeError f => UnmarshalTypeError f
  end.

Global Instance decoded_fmap : FMap decoded := λ A B f m,
  match m with
  | Decoded a => Decoded (f a)
  | UnmarshalTypeError f => UnmarshalTypeError f
  end.

Definition dec_string (field : string) (j : option json) : decoded string :=
  match j with
  | None | Some JNull => Decoded ""
  | Some (JString s) => Decoded s
  | Some _ => UnmarshalTypeError field
  end.

Definition dec_int (field : string) (j : option json) : decoded Z :=
  match j with
  | None | Some JNull => Decoded 0
  | Some (JNumber n) =>
      if int_okb n then Decoded n else UnmarshalTypeError field
  | Some _ => UnmarshalTypeError field
  end.

Definition dec_struct {A : Type} (field : string) (zero : A)
    (dec : list (string * json) → decoded A) (j : option json) : decoded A :=
  match j with
  | None | Some JNull => Decoded zero
  | Some (JObject ms) => dec ms
  | Some _ => UnmarshalTypeError field
  end.

Definition dec_ptr {A : Type} (field : string)
    (dec : list (string * json) → decoded A) (j : option json)
    : decoded (option A) :=
  match j with
  | None | Some JNull => Decoded None
  | Some (JObject ms) => Some <$> dec ms
  | Some _ => UnmarshalTypeError field
  end.

Fixpoint dec_items {A : Type} (dec : json → decoded A) (items : list json)
    : decoded (list A) :=
  match items with
  | [] => Decoded []
  | j :: rest =>
      a ← dec j;
      l ← dec_items dec rest;
      mret (a :: l)
  end.

Definition dec_slice {A : Type} (field : string) (dec : json → decoded A)
    (j : option json) : decoded (slice A) :=
  match j with
  | None | Some JNull => Decoded NilSlice
  | Some (JArray items) => Slice <$> dec_items dec items
  | Some _ => UnmarshalTypeError field
  end.

Definition unmarshal_SendError (ms : list (string * json)) : decoded SendError.t :=
  message ← dec_string "message" (member "message" ms);
  type ← dec_string "type" (member "type" ms);
  code ← dec_int "code" (member "code" ms);
  error_data ← dec_string "error_data" (member "error_data" ms);
  fbtrace_id ← dec_string "fbtrace_id" (member "fbtrace_id" ms);
  mret (SendError.mk message type code error_data fbtrace_id).

(** Modelled from the spec: the decoder of the wire response is not in
    the repository; the wire shape is
    [{recipient_id, message_id, error?: {message, type, code, error_data,
    fbtrace_id}}] (section 6). *)
Definition unmarshal_SendResponse (j : json) : decoded SendResponse.t :=
  dec_struct "SendResponse" (SendResponse.mk "" "" None)
    (λ ms,
       recipient_id ← dec_string "recipient_id" (member "recipient_id" ms);
       message_id ← dec_string "message_id" (member "message_id" ms);
       error ← dec_ptr "error" unmarshal_SendError (member "error" ms);
       mret (SendResponse.mk recipient_id message_id error))
    (Some j).

Definition unmarshal_Principal (ms : list (string * json)) : decoded Principal.t :=
  id ← dec_string "id" (member "id" ms);
  mret (Principal.mk id).

Definition unmarshal_CallbackAttachmentPayload (ms : list (string * json))
    : decoded CallbackAttachmentPayload.t :=
  url ← dec_string "url" (member "url" ms);
  mret (CallbackAttachmentPayload.mk url).

Definition unmarshal_CallbackAttachment (ms : list (string * json))
    : decoded CallbackAttachment.t :=
  type ← dec_string "type" (member "type" ms);
  payload ← dec_struct "payload" CallbackAttachmentPayload.zero
              unmarshal_CallbackAttachmentPayload (member "payload" ms);
  mret (CallbackAttachment.mk type payload).

Definition unmarshal_CallbackMessage (ms : list (string * json))
    : decoded CallbackMessage.t :=
  mid ← dec_string "mid" (member "mid" ms);
  seq ← dec_int "seq" (member "seq" ms);
  text ← dec_string "text" (member "text" ms);
  attachments ← dec_slice "attachments"
                  (λ j, dec_ptr "attachments" unmarshal_CallbackAttachment (Some j))
                  (member "attachments" ms);
  mret (CallbackMessage.mk mid seq text attachments).

Definition unmarshal_Delivery (ms : list (string * json)) : decoded Delivery.t :=
  mids ← dec_slice "mids" (λ j, dec_string "mids" (Some j)) (member "mids" ms);
  watermark ← dec_int "watermark" (member "watermark" ms);
  seq ← dec_int "seq" (member "seq" ms);
  mret (Delivery.mk mids watermark seq).

Definition unmarshal_Postback (ms : list (string * json)) : decoded Postback.t :=
  payload ← dec_string "payload" (member "payload" ms);
  mret (Postback.mk payload).

Definition unmarshal_OptIn (ms : list (string * json)) : decoded OptIn.t :=
  ref ← dec_string "ref" (member "ref" ms);
  mret (OptIn.mk ref).

Definition unmarshal_MessagingEntry (ms : list (string * json))
    : decoded MessagingEntry.t :=
  sender ← dec_struct "sender" Principal.zero unmarshal_Principal
             (member "sender" ms);
  recipient ← dec_struct "recipient" Principal.zero unmarshal_Principal
                (member "recipient" ms);
  timestamp ← dec_int "timestamp" (member "timestamp" ms);
  message ← dec_ptr "message" unmarshal_CallbackMessage (member "message" ms);
  delivery ← dec_ptr "delivery" unmarshal_Delivery (member "delivery" ms);
  postback ← dec_ptr "postback" unmarshal_Postback (member "postback" ms);
  optin ← dec_ptr "optin" unmarshal_OptIn (member "optin" ms);
  mret (MessagingEntry.mk sender recipient timestamp message delivery postback optin).

Definition unmarshal_Entry (ms : list (string * json)) : decoded Entry.t :=
  id ← dec_string "id" (member "id" ms);
  time ← dec_int "time" (member "time" ms);
  messaging ← dec_slice "messaging"
                (λ j, dec_ptr "messaging" unmarshal_MessagingEntry (Some j))
                (member "messaging" ms);
  mret (Entry.mk id time messaging).

(** Modelled from the spec: the decoder of an incoming [Callback] body is
    not in the repository; the wire shape is
    [{object, entry: [{id, time, messaging: [{sender, recipient, timestamp,
    message?, delivery?, postback?, optin?}]}]}] (section 6). *)
Definition unmarshal_Callback (j : json) : decoded Callback.t :=
  dec_struct "Callback" (Callback.mk "" NilSlice)
    (λ ms,
       object ← dec_string "object" (member "object" ms);
       entry ← dec_slice "entry"
                 (λ j, dec_ptr "entry" unmarshal_Entry (Some j))
                 (member "entry" ms);
       mret (Callback.mk object entry))
    (Some j).

(** Modelled from the spec: the decoder of a profile-fetch response is
    not in the repository; the wire shape is [{first_name, last_name,
    profile_pic, locale, timezone, gender}] (section 6), read by the keys
    of the struct tags (models.go, lines 273 to 280). *)
Definition unmarshal_UserProfile (j : json) : decoded UserProfile.t :=
  dec_struct "UserProfile" UserProfile.zero
    (λ ms,
       first_name ← dec_string "first_name" (member "first_name" ms);
       last_name ← dec_string "last_name" (member "last_name" ms);
       profile_pic ← dec_string "profile_pic" (member "profile_pic" ms);
       locale ← dec_string "locale" (member "locale" ms);
       timezone ← dec_int "timezone" (member "timezone" ms);
       gender ← dec_string "gender" (member "gender" ms);
       mret (UserProfile.mk first_name last_name profile_pic locale timezone gender))
    (Some j).

(** *** Validation at the encoding boundary

    Modelled from the spec: the repository has no encoder and no validator;
    models.go only marks fields with [binding:"required"]. Section 4.1 says
    that when a [SendRequest] is encoded for transmission every required
    field that is absent is rejected, each with a [ValidationError] that
    names the field; section 7 says the name is the field path. A string
    is absent when empty, a pointer, interface or slice when nil, the
    recipient when it has no identifier, the message when it has neither
    text nor attachment. *)

Inductive ValidationError : Type :=
| Missing (path : string).

Definition required_string (path s : string) : list ValidationError :=
  if decide (s = "") then [Missing path] else [].

Definition validate_Button (b : option Button.t) : list ValidationError :=
  match b with
  | None => []
  | Some b =>
      required_string "message.attachment.payload.buttons.type" (Button.Type_ b)
      ++ required_string "message.attachment.payload.buttons.title" (Button.Title b)
  end.

Definition validate_payload (p : payload) : list ValidationError :=
  match p with
  | PayloadNil => [Missing "message.attachment.payload"]
  | PayloadMedia m =>
      required_string "message.attachment.payload.url" (MediaPayload.Url m)
  | PayloadButton b =>
      required_string "message.attachment.payload.template_type"
        (ButtonPayload.TemplateType b)
      ++ required_string "message.attachment.payload.text" (ButtonPayload.Text b)
      ++ match ButtonPayload.Buttons b with
         | NilSlice => [Missing "message.attachment.payload.buttons"]
         | Slice l => concat (map validate_Button l)
         end
  end.

Definition validate_Message (m : Message.t) : list ValidationError :=
  match Message.Attachment m with
  | None => required_string "message" (Message.Text m)
  | Some a =>
      required_string "message.attachment.type" (Attachment.Type_ a)
      ++ validate_payload (Attachment.Payload a)
  end.

Definition validate_Recipient (r : Recipient.t) : list ValidationError :=
  if decide (Recipient.Id r = "" ∧ Recipient.PhoneNumber r = "")
  then [Missing "recipient"] else [].

Definition validate_SendRequest (sr : SendRequest.t) : list ValidationError :=
  validate_Recipient (SendRequest.Recipient sr)
  ++ validate_Message (SendRequest.Message sr).

Inductive encoded : Type :=
| Encoded (doc : json)
| Rejected (errors : list ValidationError).

(** Modelled from the spec: encoding a [SendRequest] for transmission,
    which is where the one validation happens (section 4.1); the document
    is the one of the struct tags. *)
Definition encode_SendRequest (sr : SendRequest.t) : encoded :=
  match validate_SendRequest sr with
  | [] => Encoded (marshal_SendRequest sr)
  | errors => Rejected errors
  end.

(** ** Predicates of the claims *)

(** How many of the two recipient identifiers are set (not empty). *)
Definition identifiers_set (r : Recipient.t) : nat :=
  ((if decide (Recipient.Id r = "") then 0 else 1)
   + (if decide (Recipient.PhoneNumber r = "") then 0 else 1))%nat.

(** The three notification-priority setters. *)
Definition priority_setters : list (ptr → go ptr) :=
  [Regular; SilentPush; NoPush].

(** The values of a record are Go values: every [int] in it is in range. *)
Definition ptr_ok {A : Type} (P : A → Prop) (p : option A) : Prop :=
  match p with
  | None => True
  | Some a => P a
  end.

Definition slice_ok {A : Type} (P : A → Prop) (s : slice A) : Prop :=
  Forall P (elems s).

Definition CallbackMessage_ok (m : CallbackMessage.t) : Prop :=
  int_ok (CallbackMessage.Sequence m).

Definition Delivery_ok (d : Delivery.t) : Prop :=
  int_ok (Delivery.Watermark d) ∧ int_ok (Delivery.Sequence d).

Definition MessagingEntry_ok (e : MessagingEntry.t) : Prop :=
  int_ok (MessagingEntry.Timestamp e) ∧
  ptr_ok CallbackMessage_ok (MessagingEntry.Message e) ∧
  ptr_ok Delivery_ok (MessagingEntry.Delivery e).

Definition Entry_ok (e : Entry.t) : Prop :=
  int_ok (Entry.Time e) ∧
  slice_ok (ptr_ok MessagingEntry_ok) (Entry.Messaging e).

Definition Callback_ok (c : Callback.t) : Prop :=
  slice_ok (ptr_ok Entry_ok) (Callback.Entries c).

(** Modelled from the spec: a wire [SendResponse] (section 6) is an object
    [{recipient_id, message_id, error?: {message, type, code, error_data,
    fbtrace_id}}]; each member may be missing or [null], a member that is
    there has the JSON kind of its field, and a number fits an [int]. *)
Definition wire_string (j : option json) : bool :=
  match j with
  | None | Some JNull | Some (JString _) => true
  | Some _ => false
  end.

Definition wire_int (j : option json) : bool :=
  match j with
  | None | Some JNull => true
  | Some (JNumber n) => int_okb n
  | Some _ => false
  end.

Definition wire_SendError (ms : list (string * json)) : bool :=
  wire_string (member "message" ms) && wire_string (member "type" ms)
  && wire_int (member "code" ms) && wire_string (member "error_data" ms)
  && wire_string (member "fbtrace_id" ms).

Definition wire_SendResponse (j : json) : bool :=
  match j with
  | JObject ms =>
      wire_string (member "recipient_id" ms)
      && wire_string (member "message_id" ms)
      && match member "error" ms with
         | None | Some JNull => true
         | Some (JObject ems) => wire_SendError ems
         | Some _ => false
         end
  | _ => false
  end.

(** The calls of the three constructors, at any arguments. *)
Inductive constructor_call : go ptr → Prop :=
| call_TextMessage (text : string) : constructor_call (TextMessage text)
| call_ImageMessage (url : string) : constructor_call (ImageMessage url)
| call_ButtonTemplateMessage (text : string) (buttons : slice (option Button.t)) :
    constructor_call (ButtonTemplateMessage text buttons).

(** The two recipient setters, at any argument. *)
Inductive recipient_setter : (ptr → go ptr) → Prop :=
| setter_To (userId : string) : recipient_setter (λ sr, To sr userId)
| setter_ToPhoneNumber (phoneNumber : string) :
    recipient_setter (λ sr, ToPhoneNumber sr phoneNumber).

(** The five fluent mutators. *)
Definition mutator (m : ptr → go ptr) : Prop :=
  recipient_setter m ∨ m ∈ priority_setters.

(** The three notification-priority setters, each with the string it
    writes (models.go, lines 66, 74 and 82). *)
Definition priority_values : list ((ptr → go ptr) * string) :=
  [(Regular, "REGULAR"); (SilentPush, "SILENT_PUSH"); (NoPush, "NO_PUSH")].

(** A send error, a send response and a profile that go through the
    encoder unchanged: their strings are valid UTF-8 and their [int]s are
    Go [int]s. *)
Definition SendError_ok (e : SendError.t) : Prop :=
  utf8_valid (SendError.Message e) = true ∧
  utf8_valid (SendError.Type_ e) = true ∧
  int_ok (SendError.Code e) ∧
  utf8_valid (SendError.ErrorData e) = true ∧
  utf8_valid (SendError.FBTraceId e) = true.

Definition SendResponse_ok (r : SendResponse.t) : Prop :=
  utf8_valid (SendResponse.RecipientId r) = true ∧
  utf8_valid (SendResponse.MessageId r) = true ∧
  ptr_ok SendError_ok (SendResponse.Error r).

Definition UserProfile_ok (u : UserProfile.t) : Prop :=
  utf8_valid (UserProfile.FirstName u) = true ∧
  utf8_valid (UserProfile.LastName u) = true ∧
  utf8_valid (UserProfile.ProfilePhotoUrl u) = true ∧
  utf8_valid (UserProfile.Locale u) = true ∧
  int_ok (UserProfile.Timezone u) ∧
  utf8_valid (UserProfile.Gender u) = true.

(** ** Running the fluent methods *)

Lemma assign_allocated (h : gmap loc SendRequest.t) (l : loc)
    (sr : SendRequest.t) (upd : SendRequest.t → SendRequest.t) :
  h !! l = Some sr →
  assign (at_loc l) upd h = Done tt (<[l := upd sr]> h).
Proof. intros Hl. unfold assign. by rewrite Hl. Qed.

Lemma assign_then_return (h : gmap loc SendRequest.t) (l : loc)
    (sr : SendRequest.t) (upd : SendRequest.t → SendRequest.t) :
  h !! l = Some sr →
  (assign (at_loc l) upd ;; mret (at_loc l)) h
  = Done (at_loc l) (<[l := upd sr]> h).
Proof.
  intros Hl. unfold mbind, go_bind.
  by rewrite (assign_allocated h l sr upd Hl).
Qed.

Lemma new_fresh (v : SendRequest.t) (h : gmap loc SendRequest.t) :
  ∃ l, new v h = Done (at_loc l) (<[l := v]> h) ∧ h !! l = None.
Proof.
  exists (fresh (dom h)). split; [reflexivity |].
  apply not_elem_of_dom, is_fresh.
Qed.

(** ** The constructors *)

(** C3. For every string [t], [TextMessage t] allocates a new request
    whose message has text [t] and no attachment, and in which nothing
    else is populated: the recipient and the notification type are at
    their zero values. *)
Theorem TextMessage_text_only (t : string) (h : gmap loc SendRequest.t) :
  ∃ l sr,
    TextMessage t h = Done (at_loc l) (<[l := sr]> h) ∧ h !! l = None ∧
    Message.Text (SendRequest.Message sr) = t ∧
    Message.Attachment (SendRequest.Message sr) = None ∧
    sr = SendRequest.mk Recipient.zero (Message.mk t None) "".
Proof.
  destruct (new_fresh (SendRequest.mk Recipient.zero (Message.mk t None) "") h)
    as (l & Hrun & Hfresh).
  exists l. eexists. split; [exact Hrun |]. by repeat split.
Qed.

(** C4. For every string [u], [ImageMessage u] allocates a new request
    whose message has an attachment of type "image" with a media payload
    of url [u], and whose text is absent (empty). *)
Theorem ImageMessage_image_attachment (u : string) (h : gmap loc SendRequest.t) :
  ∃ l sr,
    ImageMessage u h = Done (at_loc l) (<[l := sr]> h) ∧ h !! l = None ∧
    Message.Attachment (SendRequest.Message sr)
    = Some (Attachment.mk "image" (PayloadMedia (MediaPayload.mk u))) ∧
    Message.Text (SendRequest.Message sr) = "".
Proof.
  unfold ImageMessage.
  match goal with |- context [new ?v h] => destruct (new_fresh v h) as (l & Hrun & Hfresh) end.
  exists l. eexists. split; [exact Hrun |]. by repeat split.
Qed.

(** C2. For every text and every slice of buttons, of any length,
    [ButtonTemplateMessage] allocates a new request whose attachment has
    type "template" and whose payload is a button payload with template
    type "button", the given text, and the given buttons in the given
    order; called with the buttons [bs] as separate arguments, the buttons
    of the payload are exactly [bs]. *)
Theorem ButtonTemplateMessage_keeps_buttons (text : string)
    (buttons : slice (option Button.t)) (bs : list (option Button.t))
    (h : gmap loc SendRequest.t) :
  (∃ l sr p,
     ButtonTemplateMessage text buttons h = Done (at_loc l) (<[l := sr]> h) ∧
     h !! l = None ∧
     Message.Attachment (SendRequest.Message sr)
     = Some (Attachment.mk "template" (PayloadButton p)) ∧
     ButtonPayload.TemplateType p = "button" ∧
     ButtonPayload.Text p = text ∧
     ButtonPayload.Buttons p = buttons) ∧
  (∃ l sr p,
     ButtonTemplateMessage text (variadic bs) h = Done (at_loc l) (<[l := sr]> h) ∧
     Message.Attachment (SendRequest.Message sr)
     = Some (Attachment.mk "template" (PayloadButton p)) ∧
     ButtonPayload.TemplateType p = "button" ∧
     ButtonPayload.Text p = text ∧
     elems (ButtonPayload.Buttons p) = bs).
Proof.
  split.
  - unfold ButtonTemplateMessage.
    match goal with |- context [new ?v h] => destruct (new_fresh v h) as (l & Hrun & Hfresh) end.
    exists l. do 2 eexists. split; [exact Hrun |]. by repeat split.
  - unfold ButtonTemplateMessage.
    match goal with |- context [new ?v h] => destruct (new_fresh v h) as (l & Hrun & Hfresh) end.
    exists l. do 2 eexists. split; [exact Hrun |]. repeat split.
    by destruct bs.
Qed.

(** ** The fluent mutators *)

Local Ltac run_method Hl :=
  unfold To, ToPhoneNumber, Regular, SilentPush, NoPush;
  rewrite (assign_then_return _ _ _ _ Hl).

(** C1 (amended). On an allocated request, [To] returns its receiver and
    leaves the recipient with [Id] the given id and an empty phone number;
    [ToPhoneNumber] returns its receiver and leaves the recipient with the
    given phone number and an empty [Id]. After a call with a non-empty
    argument exactly one identifier is set; after a call with the empty
    string none is. *)
Theorem recipient_setters_set_one_field (h : gmap loc SendRequest.t) (l : loc)
    (sr : SendRequest.t) (s : string) :
  h !! l = Some sr →
  (∃ sr',
     To (at_loc l) s h = Done (at_loc l) (<[l := sr']> h) ∧
     Recipient.Id (SendRequest.Recipient sr') = s ∧
     Recipient.PhoneNumber (SendRequest.Recipient sr') = "" ∧
     identifiers_set (SendRequest.Recipient sr')
     = (if decide (s = "") then 0 else 1)%nat) ∧
  (∃ sr',
     ToPhoneNumber (at_loc l) s h = Done (at_loc l) (<[l := sr']> h) ∧
     Recipient.PhoneNumber (SendRequest.Recipient sr') = s ∧
     Recipient.Id (SendRequest.Recipient sr') = "" ∧
     identifiers_set (SendRequest.Recipient sr')
     = (if decide (s = "") then 0 else 1)%nat).
Proof.
  intros Hl. split; eexists; run_method Hl.
  - split; [reflexivity |]. cbn. unfold identifiers_set. cbn.
    repeat split. by destruct (decide (s = "")).
  - split; [reflexivity |]. cbn. unfold identifiers_set. cbn.
    repeat split.
Qed.

Lemma recipient_setters_set_one_field_witness :
  ({[ 1%positive := SendRequest.zero ]} : gmap loc SendRequest.t) !! 1%positive
  = Some SendRequest.zero ∧
  ∃ sr',
    To (at_loc 1) "1234567890"
      ({[ 1%positive := SendRequest.zero ]} : gmap loc SendRequest.t)
    = Done (at_loc 1) (<[1%positive := sr']> {[ 1%positive := SendRequest.zero ]}) ∧
    Recipient.Id (SendRequest.Recipient sr') = "1234567890" ∧
    Recipient.PhoneNumber (SendRequest.Recipient sr') = "" ∧
    identifiers_set (SendRequest.Recipient sr') = 1%nat.
Proof.
  split; [reflexivity |].
  exact (proj1 (recipient_setters_set_one_field
                  {[ 1%positive := SendRequest.zero ]} 1%positive
                  SendRequest.zero "1234567890" eq_refl)).
Defined.

(** C1 as stated fails for the empty string: after [To sr ""] neither
    identifier of the recipient is set. *)
Lemma To_empty_id_counterexample :
  ∃ sr',
    To (at_loc 1) "" ({[ 1%positive := SendRequest.zero ]} : gmap loc SendRequest.t)
    = Done (at_loc 1) ({[ 1%positive := sr' ]} : gmap loc SendRequest.t) ∧
    Recipient.Id (SendRequest.Recipient sr') = "" ∧
    Recipient.PhoneNumber (SendRequest.Recipient sr') = "" ∧
    identifiers_set (SendRequest.Recipient sr') ≠ 1%nat.
Proof.
  exists (SendRequest.mk (Recipient.mk "" "") Message.zero "").
  split; [by vm_compute |]. by repeat split.
Qed.

(** C5. On an allocated request, [Regular], [SilentPush] and [NoPush]
    return their receiver and leave its notification type at "REGULAR",
    "SILENT_PUSH" and "NO_PUSH". *)
Theorem priority_setters_fixed_strings (h : gmap loc SendRequest.t) (l : loc)
    (sr : SendRequest.t) :
  h !! l = Some sr →
  (∃ sr', Regular (at_loc l) h = Done (at_loc l) (<[l := sr']> h) ∧
          SendRequest.NotificationType sr' = "REGULAR") ∧
  (∃ sr', SilentPush (at_loc l) h = Done (at_loc l) (<[l := sr']> h) ∧
          SendRequest.NotificationType sr' = "SILENT_PUSH") ∧
  (∃ sr', NoPush (at_loc l) h = Done (at_loc l) (<[l := sr']> h) ∧
          SendRequest.NotificationType sr' = "NO_PUSH").
Proof.
  intros Hl. repeat split; eexists; run_method Hl; by split.
Qed.

Lemma priority_setters_fixed_strings_witness :
  ({[ 2%positive := SendRequest.zero ]} : gmap loc SendRequest.t) !! 2%positive
  = Some SendRequest.zero ∧
  ∃ sr',
    SilentPush (at_loc 2)
      ({[ 2%positive := SendRequest.zero ]} : gmap loc SendRequest.t)
    = Done (at_loc 2) (<[2%positive := sr']> {[ 2%positive := SendRequest.zero ]}) ∧
    SendRequest.NotificationType sr' = "SILENT_PUSH".
Proof.
  split; [reflexivity |].
  exact (proj1 (proj2 (priority_setters_fixed_strings
                         {[ 2%positive := SendRequest.zero ]} 2%positive
                         SendRequest.zero eq_refl))).
Defined.

Lemma priority_setter_cases (f : ptr → go ptr) :
  f ∈ priority_setters → f = Regular ∨ f = SilentPush ∨ f = NoPush.
Proof.
  unfold priority_setters. rewrite !elem_of_cons, elem_of_nil. tauto.
Qed.

Lemma priority_setter_run (f : ptr → go ptr) (h : gmap loc SendRequest.t)
    (l : loc) (sr : SendRequest.t) :
  f ∈ priority_setters → h !! l = Some sr →
  ∃ n, f (at_loc l) h
       = Done (at_loc l) (<[l := SendRequest.set_NotificationType n sr]> h) ∧
       ∀ h' sr', h' !! l = Some sr' →
         f (at_loc l) h'
         = Done (at_loc l) (<[l := SendRequest.set_NotificationType n sr']> h').
Proof.
  intros Hf Hl.
  destruct (priority_setter_cases f Hf) as [-> | [-> | ->]];
    eexists; (split; [run_method Hl; reflexivity |]);
    intros h' sr' Hl'; by run_method Hl'.
Qed.

Lemma priority_value_run (f : ptr → go ptr) (a : string)
    (h : gmap loc SendRequest.t) (l : loc) (sr : SendRequest.t) :
  (f, a) ∈ priority_values → h !! l = Some sr →
  f (at_loc l) h
  = Done (at_loc l)
      (<[l := SendRequest.mk (SendRequest.Recipient sr) (SendRequest.Message sr) a]> h).
Proof.
  unfold priority_values. rewrite !elem_of_cons, elem_of_nil.
  intros [[= -> ->] | [[= -> ->] | [[= -> ->] | []]]] Hl; by run_method Hl.
Qed.

(** C6. On an allocated request, let [f] and [g] be notification-priority
    setters and [a] and [b] the strings they write. Calling [f] leaves the
    notification type at [a]; calling [f] twice leaves the same state (and
    returns the same pointer) as calling it once; calling [f] and then [g]
    leaves the state that [g] alone leaves, in which the notification type
    is [b] and the recipient and the message are untouched: the last write
    wins. *)
Theorem priority_setters_idempotent_last_wins (f g : ptr → go ptr)
    (a b : string) (h : gmap loc SendRequest.t) (l : loc) (sr : SendRequest.t) :
  (f, a) ∈ priority_values → (g, b) ∈ priority_values → h !! l = Some sr →
  f (at_loc l) h
  = Done (at_loc l)
      (<[l := SendRequest.mk (SendRequest.Recipient sr) (SendRequest.Message sr) a]> h) ∧
  (f (at_loc l) ≫= f) h = f (at_loc l) h ∧
  (f (at_loc l) ≫= g) h = g (at_loc l) h ∧
  (f (at_loc l) ≫= g) h
  = Done (at_loc l)
      (<[l := SendRequest.mk (SendRequest.Recipient sr) (SendRequest.Message sr) b]> h).
Proof.
  intros Hf Hg Hl.
  assert (Hff : (f (at_loc l) ≫= f) h
                = Done (at_loc l)
                    (<[l := SendRequest.mk (SendRequest.Recipient sr)
                              (SendRequest.Message sr) a]> h)).
  { unfold mbind, go_bind. rewrite (priority_value_run f a h l sr Hf Hl).
    rewrite (priority_value_run f a _ l _ Hf (lookup_insert_eq h l _)).
    by rewrite insert_insert_eq. }
  assert (Hfg : (f (at_loc l) ≫= g) h
                = Done (at_loc l)
                    (<[l := SendRequest.mk (SendRequest.Recipient sr)
                              (SendRequest.Message sr) b]> h)).
  { unfold mbind, go_bind. rewrite (priority_value_run f a h l sr Hf Hl).
    rewrite (priority_value_run g b _ l _ Hg (lookup_insert_eq h l _)).
    by rewrite insert_insert_eq. }
  rewrite Hff, Hfg, (priority_value_run f a h l sr Hf Hl),
    (priority_value_run g b h l sr Hg Hl).
  by repeat split.
Qed.

Lemma priority_setters_idempotent_last_wins_witness :
  Regular (at_loc 1)
    ({[ 1%positive := SendRequest.mk (Recipient.mk "USER_ID" "")
                        (Message.mk "hi" None) "SILENT_PUSH" ]}
     : gmap loc SendRequest.t)
  = Done (at_loc 1)
      {[ 1%positive := SendRequest.mk (Recipient.mk "USER_ID" "")
                         (Message.mk "hi" None) "REGULAR" ]} ∧
  (Regular (at_loc 1) ≫= Regular)
    ({[ 1%positive := SendRequest.mk (Recipient.mk "USER_ID" "")
                        (Message.mk "hi" None) "SILENT_PUSH" ]}
     : gmap loc SendRequest.t)
  = Done (at_loc 1)
      {[ 1%positive := SendRequest.mk (Recipient.mk "USER_ID" "")
                         (Message.mk "hi" None) "REGULAR" ]} ∧
  (Regular (at_loc 1) ≫= NoPush)
    ({[ 1%positive := SendRequest.mk (Recipient.mk "USER_ID" "")
                        (Message.mk "hi" None) "SILENT_PUSH" ]}
     : gmap loc SendRequest.t)
  = Done (at_loc 1)
      {[ 1%positive := SendRequest.mk (Recipient.mk "USER_ID" "")
                         (Message.mk "hi" None) "NO_PUSH" ]}.
Proof.
  assert (Hl : ({[ 1%positive := SendRequest.mk (Recipient.mk "USER_ID" "")
                                   (Message.mk "hi" None) "SILENT_PUSH" ]}
                : gmap loc SendRequest.t) !! 1%positive
               = Some (SendRequest.mk (Recipient.mk "USER_ID" "")
                         (Message.mk "hi" None) "SILENT_PUSH"))
    by reflexivity.
  assert (Hf : (Regular, "REGULAR") ∈ priority_values)
    by (unfold priority_values; apply list_elem_of_here).
  assert (Hg : (NoPush, "NO_PUSH") ∈ priority_values)
    by (unfold priority_values; do 2 apply list_elem_of_further;
        apply list_elem_of_here).
  destruct (priority_setters_idempotent_last_wins Regular NoPush
              "REGULAR" "NO_PUSH" _ 1%positive _ Hf Hg Hl)
    as (Hrun & Htwice & _ & Hlast).
  split; [| split].
  - exact Hrun.
  - rewrite Htwice. exact Hrun.
  - exact Hlast.
Defined.

(** C10. On an allocated request [sr] at [l], every fluent mutator
    returns [l] and changes the heap only at [l]; the two recipient setters
    leave the message and the notification type of [sr] as they were, the
    three notification-priority setters leave its recipient and message as
    they were. No mutator changes the message. *)
Theorem mutators_frame (h : gmap loc SendRequest.t) (l : loc)
    (sr : SendRequest.t) (s : string) :
  h !! l = Some sr →
  (∀ m, m ∈ [To (at_loc l) s; ToPhoneNumber (at_loc l) s] →
     ∃ sr', m h = Done (at_loc l) (<[l := sr']> h) ∧
            SendRequest.Message sr' = SendRequest.Message sr ∧
            SendRequest.NotificationType sr' = SendRequest.NotificationType sr) ∧
  (∀ f, f ∈ priority_setters →
     ∃ sr', f (at_loc l) h = Done (at_loc l) (<[l := sr']> h) ∧
            SendRequest.Recipient sr' = SendRequest.Recipient sr ∧
            SendRequest.Message sr' = SendRequest.Message sr).
Proof.
  intros Hl. split.
  - intros m Hm. rewrite !elem_of_cons, elem_of_nil in Hm.
    destruct Hm as [-> | [-> | []]]; eexists; run_method Hl; by split.
  - intros f Hf.
    destruct (priority_setter_run f h l sr Hf Hl) as (n & Hrun & _).
    eexists. split; [exact Hrun |]. by split.
Qed.

Lemma mutators_frame_witness :
  ∃ sr',
    To (at_loc 1) "42"
      ({[ 1%positive := SendRequest.mk Recipient.zero (Message.mk "hi" None) "REGULAR" ]}
       : gmap loc SendRequest.t)
    = Done (at_loc 1)
        (<[1%positive := sr']>
           {[ 1%positive := SendRequest.mk Recipient.zero (Message.mk "hi" None) "REGULAR" ]}) ∧
    SendRequest.Message sr' = Message.mk "hi" None ∧
    SendRequest.NotificationType sr' = "REGULAR".
Proof.
  assert (Hl : ({[ 1%positive := SendRequest.mk Recipient.zero (Message.mk "hi" None) "REGULAR" ]}
                : gmap loc SendRequest.t) !! 1%positive
               = Some (SendRequest.mk Recipient.zero (Message.mk "hi" None) "REGULAR"))
    by reflexivity.
  apply (proj1 (mutators_frame _ _ _ "42" Hl)).
  apply list_elem_of_here.
Defined.

(** ** Validation at encode time *)

(** C8. Encoding a [SendRequest] whose recipient has neither identifier
    is rejected, and the first [ValidationError] names "recipient". No
    check happens earlier: a constructor hands out such a request without
    complaint, and it is its encoding that is rejected. *)
Theorem encode_without_recipient_rejected (sr : SendRequest.t) :
  Recipient.Id (SendRequest.Recipient sr) = "" →
  Recipient.PhoneNumber (SendRequest.Recipient sr) = "" →
  (∃ rest, encode_SendRequest sr = Rejected (Missing "recipient" :: rest)) ∧
  (∀ t h, ∃ l sr' rest,
     TextMessage t h = Done (at_loc l) (<[l := sr']> h) ∧
     encode_SendRequest sr' = Rejected (Missing "recipient" :: rest)).
Proof.
  intros Hid Hphone. split.
  - unfold encode_SendRequest, validate_SendRequest, validate_Recipient.
    rewrite Hid, Hphone. cbn. by eexists.
  - intros t h.
    unfold TextMessage.
    match goal with
    | |- context [new ?v h] => destruct (new_fresh v h) as (l & Hrun & _)
    end.
    exists l. do 2 eexists. split; [exact Hrun |]. reflexivity.
Qed.

Lemma encode_without_recipient_rejected_witness :
  ∃ rest,
    encode_SendRequest (SendRequest.mk Recipient.zero (Message.mk "hello" None) "")
    = Rejected (Missing "recipient" :: rest).
Proof.
  exact (proj1 (encode_without_recipient_rejected
                  (SendRequest.mk Recipient.zero (Message.mk "hello" None) "")
                  eq_refl eq_refl)).
Defined.

(** ** Decoding a send response *)

Lemma wire_string_decodes (field : string) (j : option json) :
  wire_string j = true → ∃ s, dec_string field j = Decoded s.
Proof. destruct j as [[]|]; cbn; intros; by eauto. Qed.

Lemma wire_int_decodes (field : string) (j : option json) :
  wire_int j = true → ∃ n, dec_int field j = Decoded n.
Proof.
  destruct j as [[]|]; cbn; intros Hj; try by eauto.
  rewrite Hj. by eauto.
Qed.

(** C9. For every wire [SendResponse] whose [error] member is an object,
    decoding succeeds with a populated [SendError]; its [Code] is the
    number the wire object has under "code" and its [FBTraceId] the string
    it has under "fbtrace_id". A missing "recipient_id" or "message_id"
    does not make decoding fail and leaves the field empty. *)
Theorem unmarshal_SendResponse_remote_error (ms ems : list (string * json)) :
  wire_SendResponse (JObject ms) = true →
  member "error" ms = Some (JObject ems) →
  ∃ r e,
    unmarshal_SendResponse (JObject ms) = Decoded r ∧
    SendResponse.Error r = Some e ∧
    (∀ code, member "code" ems = Some (JNumber code) → SendError.Code e = code) ∧
    (∀ trace, member "fbtrace_id" ems = Some (JString trace) →
       SendError.FBTraceId e = trace) ∧
    (member "recipient_id" ms = None → SendResponse.RecipientId r = "") ∧
    (member "message_id" ms = None → SendResponse.MessageId r = "").
Proof.
  intros Hwire Herror.
  cbn [wire_SendResponse] in Hwire. rewrite Herror in Hwire.
  unfold wire_SendError in Hwire. rewrite !andb_true_iff in Hwire.
  destruct Hwire as ((Hwrid & Hwmid) & ((((Hwmsg & Hwty) & Hwcode) & Hwdat) & Hwtrace)).
  destruct (wire_string_decodes "recipient_id" _ Hwrid) as [rid Hrid].
  destruct (wire_string_decodes "message_id" _ Hwmid) as [mid Hmid].
  destruct (wire_string_decodes "message" _ Hwmsg) as [msg Hmsg].
  destruct (wire_string_decodes "type" _ Hwty) as [ty Hty].
  destruct (wire_int_decodes "code" _ Hwcode) as [n Hn].
  destruct (wire_string_decodes "error_data" _ Hwdat) as [dat Hdat].
  destruct (wire_string_decodes "fbtrace_id" _ Hwtrace) as [tr Htr].
  exists (SendResponse.mk rid mid (Some (SendError.mk msg ty n dat tr))).
  eexists. split; [| split; [reflexivity |]].
  - unfold unmarshal_SendResponse, dec_struct.
    rewrite Hrid, Hmid, Herror. cbn.
    unfold unmarshal_SendError.
    by rewrite Hmsg, Hty, Hn, Hdat, Htr.
  - cbn. repeat split.
    + intros code Hcode. rewrite Hcode in Hn, Hwcode. cbn in Hn, Hwcode.
      rewrite Hwcode in Hn. congruence.
    + intros trace Htrace. rewrite Htrace in Htr. cbn in Htr. congruence.
    + intros Hnone. rewrite Hnone in Hrid. cbn in Hrid. congruence.
    + intros Hnone. rewrite Hnone in Hmid. cbn in Hmid. congruence.
Qed.

Lemma unmarshal_SendResponse_remote_error_witness :
  ∃ r e,
    unmarshal_SendResponse
      (JObject [("error",
                 JObject [("message", JString "Invalid OAuth access token.");
                          ("type", JString "OAuthException");
                          ("code", JNumber 190);
                          ("fbtrace_id", JString "BLBz/WZt8dN")])])
    = Decoded r ∧
    SendResponse.Error r = Some e ∧
    SendError.Code e = 190 ∧
    SendError.FBTraceId e = "BLBz/WZt8dN" ∧
    SendResponse.RecipientId r = "" ∧
    SendResponse.MessageId r = "".
Proof.
  destruct (unmarshal_SendResponse_remote_error
              [("error",
                JObject [("message", JString "Invalid OAuth access token.");
                         ("type", JString "OAuthException");
                         ("code", JNumber 190);
                         ("fbtrace_id", JString "BLBz/WZt8dN")])]
              [("message", JString "Invalid OAuth access token.");
               ("type", JString "OAuthException");
               ("code", JNumber 190);
               ("fbtrace_id", JString "BLBz/WZt8dN")]
              eq_refl eq_refl)
    as (r & e & Hdec & Herr & Hcode & Htrace & Hrid & Hmid).
  exists r, e. repeat split; try assumption.
  - apply Hcode. reflexivity.
  - apply Htrace. reflexivity.
  - apply Hrid. reflexivity.
  - apply Hmid. reflexivity.
Defined.

(** ** Round trip of a callback *)

Section RoundTrip.

Lemma int_okb_ok (n : Z) : int_ok n → int_okb n = true.
Proof. unfold int_ok, int_okb. intros [Hlo Hhi]. apply andb_true_iff. lia. Qed.

Lemma dec_int_number (field : string) (n : Z) :
  int_ok n → dec_int field (Some (JNumber n)) = Decoded n.
Proof. intros Hn. cbn. by rewrite (int_okb_ok n Hn). Qed.

Context {A : Type} (enc : A → json) (dec : json → decoded A).

Lemma dec_items_map (l : list A) :
  Forall (λ a, dec (enc a) = Decoded a) l →
  dec_items dec (map enc l) = Decoded l.
Proof.
  induction 1 as [| a l Ha _ IH]; [reflexivity |].
  cbn [map dec_items]. rewrite Ha. cbn. rewrite IH. reflexivity.
Qed.

Lemma dec_slice_marshal (field : string) (s : slice A) :
  Forall (λ a, dec (enc a) = Decoded a) (elems s) →
  dec_slice field dec (Some (marshal_slice enc s)) = Decoded s.
Proof.
  destruct s as [| l]; [reflexivity |]. cbn [elems marshal_slice dec_slice].
  intros Hl. by rewrite (dec_items_map l Hl).
Qed.

End RoundTrip.

Lemma Principal_round_trip (field : string) (p : Principal.t) :
  dec_struct field Principal.zero unmarshal_Principal (Some (marshal_Principal p))
  = Decoded p.
Proof. by destruct p. Qed.

Lemma CallbackAttachment_round_trip (field : string)
    (p : option CallbackAttachment.t) :
  dec_ptr field unmarshal_CallbackAttachment
    (Some (marshal_ptr marshal_CallbackAttachment p))
  = Decoded p.
Proof. by destruct p as [[ty [url]] |]. Qed.

Lemma CallbackMessage_round_trip (field : string) (p : option CallbackMessage.t) :
  ptr_ok CallbackMessage_ok p →
  dec_ptr field unmarshal_CallbackMessage
    (Some (marshal_ptr marshal_CallbackMessage p))
  = Decoded p.
Proof.
  destruct p as [[mid seq text atts] |]; [| reflexivity].
  unfold CallbackMessage_ok. cbn [ptr_ok CallbackMessage.Sequence]. intros Hseq.
  cbn [marshal_ptr marshal_CallbackMessage dec_ptr CallbackMessage.MessageId
    CallbackMessage.Sequence CallbackMessage.Text CallbackMessage.Attachments].
  unfold unmarshal_CallbackMessage.
  change (member "mid" _) with (Some (JString mid)).
  change (member "seq" _) with (Some (JNumber seq)).
  change (member "text" _) with (Some (JString text)).
  change (member "attachments" _)
    with (Some (marshal_slice (marshal_ptr marshal_CallbackAttachment) atts)).
  rewrite (dec_int_number _ seq Hseq), dec_slice_marshal; [reflexivity |].
  apply Forall_forall. intros p _. apply CallbackAttachment_round_trip.
Qed.

Lemma Delivery_round_trip (field : string) (p : option Delivery.t) :
  ptr_ok Delivery_ok p →
  dec_ptr field unmarshal_Delivery (Some (marshal_ptr marshal_Delivery p))
  = Decoded p.
Proof.
  destruct p as [[mids w seq] |]; [| reflexivity].
  unfold Delivery_ok. cbn [ptr_ok Delivery.Watermark Delivery.Sequence].
  intros [Hw Hseq].
  cbn [marshal_ptr marshal_Delivery dec_ptr Delivery.MessageIds
    Delivery.Watermark Delivery.Sequence].
  unfold unmarshal_Delivery.
  change (member "mids" _) with (Some (marshal_slice JString mids)).
  change (member "watermark" _) with (Some (JNumber w)).
  change (member "seq" _) with (Some (JNumber seq)).
  rewrite (dec_int_number _ w Hw), (dec_int_number _ seq Hseq),
    dec_slice_marshal; [reflexivity |].
  by apply Forall_forall.
Qed.

Lemma Postback_round_trip (field : string) (p : option Postback.t) :
  dec_ptr field unmarshal_Postback (Some (marshal_ptr marshal_Postback p))
  = Decoded p.
Proof. by destruct p as [[payload] |]. Qed.

Lemma OptIn_round_trip (field : string) (p : option OptIn.t) :
  dec_ptr field unmarshal_OptIn (Some (marshal_ptr marshal_OptIn p)) = Decoded p.
Proof. by destruct p as [[ref] |]. Qed.

Lemma MessagingEntry_round_trip (field : string) (p : option MessagingEntry.t) :
  ptr_ok MessagingEntry_ok p →
  dec_ptr field unmarshal_MessagingEntry
    (Some (marshal_ptr marshal_MessagingEntry p))
  = Decoded p.
Proof.
  destruct p as [[sender recipient ts msg del pb oi] |]; [| reflexivity].
  unfold MessagingEntry_ok. cbn [ptr_ok MessagingEntry.Timestamp
    MessagingEntry.Message MessagingEntry.Delivery]. intros (Hts & Hmsg & Hdel).
  cbn [marshal_ptr marshal_MessagingEntry dec_ptr MessagingEntry.Sender
    MessagingEntry.Recipient MessagingEntry.Timestamp MessagingEntry.Message
    MessagingEntry.Delivery MessagingEntry.Postback MessagingEntry.OptIn].
  unfold unmarshal_MessagingEntry.
  change (member "sender" _) with (Some (marshal_Principal sender)).
  change (member "recipient" _) with (Some (marshal_Principal recipient)).
  change (member "timestamp" _) with (Some (JNumber ts)).
  change (member "message" _) with (Some (marshal_ptr marshal_CallbackMessage msg)).
  change (member "delivery" _) with (Some (marshal_ptr marshal_Delivery del)).
  change (member "postback" _) with (Some (marshal_ptr marshal_Postback pb)).
  change (member "optin" _) with (Some (marshal_ptr marshal_OptIn oi)).
  rewrite !Principal_round_trip, (dec_int_number _ ts Hts),
    (CallbackMessage_round_trip _ msg Hmsg), (Delivery_round_trip _ del Hdel),
    Postback_round_trip, OptIn_round_trip.
  reflexivity.
Qed.

Lemma Entry_round_trip (field : string) (p : option Entry.t) :
  ptr_ok Entry_ok p →
  dec_ptr field unmarshal_Entry (Some (marshal_ptr marshal_Entry p)) = Decoded p.
Proof.
  destruct p as [[page time messaging] |]; [| reflexivity].
  unfold Entry_ok, slice_ok. cbn [ptr_ok Entry.Time Entry.Messaging].
  intros (Htime & Hmessaging).
  cbn [marshal_ptr marshal_Entry dec_ptr Entry.PageId Entry.Time Entry.Messaging].
  unfold unmarshal_Entry.
  change (member "id" _) with (Some (JString page)).
  change (member "time" _) with (Some (JNumber time)).
  change (member "messaging" _)
    with (Some (marshal_slice (marshal_ptr marshal_MessagingEntry) messaging)).
  rewrite (dec_int_number _ time Htime), dec_slice_marshal; [reflexivity |].
  eapply Forall_impl; [exact Hmessaging |].
  intros p Hp. by apply MessagingEntry_round_trip.
Qed.

Lemma Callback_round_trip (c : Callback.t) :
  Callback_ok c → unmarshal_Callback (marshal_Callback c) = Decoded c.
Proof.
  destruct c as [object entries]. unfold Callback_ok, slice_ok.
  cbn [Callback.Entries]. intros Hentries.
  unfold unmarshal_Callback, marshal_Callback, dec_struct.
  cbn [Callback.Object Callback.Entries].
  change (member "object" _) with (Some (JString object)).
  change (member "entry" _)
    with (Some (marshal_slice (marshal_ptr marshal_Entry) entries)).
  rewrite dec_slice_marshal; [reflexivity |].
  eapply Forall_impl; [exact Hentries |].
  intros p Hp. by apply Entry_round_trip.
Qed.

(** C7. For every callback with one entry holding one messaging entry
    whose only populated variant is a message carrying text and no
    attachments, decoding the encoded callback succeeds and gives back one
    entry with one messaging entry, equal to the original one, in which
    delivery, postback and optin are absent. *)
Theorem text_callback_round_trip (c : Callback.t) (e : Entry.t)
    (m : MessagingEntry.t) (msg : CallbackMessage.t) :
  Callback_ok c →
  elems (Callback.Entries c) = [Some e] →
  elems (Entry.Messaging e) = [Some m] →
  MessagingEntry.Message m = Some msg →
  elems (CallbackMessage.Attachments msg) = [] →
  MessagingEntry.Delivery m = None →
  MessagingEntry.Postback m = None →
  MessagingEntry.OptIn m = None →
  ∃ c' e' m',
    unmarshal_Callback (marshal_Callback c) = Decoded c' ∧
    elems (Callback.Entries c') = [Some e'] ∧
    elems (Entry.Messaging e') = [Some m'] ∧
    m' = m ∧
    MessagingEntry.Delivery m' = None ∧
    MessagingEntry.Postback m' = None ∧
    MessagingEntry.OptIn m' = None.
Proof.
  intros Hok Hentries Hmessaging _ _ Hdelivery Hpostback Hoptin.
  exists c, e, m. rewrite (Callback_round_trip c Hok). by repeat split.
Qed.

Lemma text_callback_round_trip_witness :
  ∃ c' e' m',
    unmarshal_Callback
      (marshal_Callback
         (Callback.mk "page"
            (Slice [Some (Entry.mk "1234" 1458692752478
              (Slice [Some (MessagingEntry.mk (Principal.mk "USER_ID")
                              (Principal.mk "PAGE_ID") 1458692752478
                              (Some (CallbackMessage.mk "mid.1457764197618:41d102a3e1ae206a38"
                                       73 "hello, world!" NilSlice))
                              None None None)]))])))
    = Decoded c' ∧
    elems (Callback.Entries c') = [Some e'] ∧
    elems (Entry.Messaging e') = [Some m'] ∧
    m' = MessagingEntry.mk (Principal.mk "USER_ID") (Principal.mk "PAGE_ID")
           1458692752478
           (Some (CallbackMessage.mk "mid.1457764197618:41d102a3e1ae206a38"
                    73 "hello, world!" NilSlice))
           None None None ∧
    MessagingEntry.Delivery m' = None ∧
    MessagingEntry.Postback m' = None ∧
    MessagingEntry.OptIn m' = None.
Proof.
  eapply text_callback_round_trip; try reflexivity.
  unfold Callback_ok, slice_ok, Entry_ok, slice_ok, MessagingEntry_ok,
    CallbackMessage_ok, int_ok. cbn.
  repeat constructor; cbn; lia.
Defined.

(** ** The documents on the wire, on examples *)

Example marshal_text_request :
  marshal_SendRequest
    (SendRequest.mk (Recipient.mk "USER_ID" "") (Message.mk "hello" None) "NO_PUSH")
  = JObject [("recipient", JObject [("id", JString "USER_ID")]);
             ("message", JObject [("text", JString "hello")]);
             ("notification_type", JString "NO_PUSH")].
Proof. reflexivity. Qed.

Example encode_image_request :
  encode_SendRequest
    (SendRequest.mk (Recipient.mk "" "+1(212)555-2368")
       (Message.mk "" (Some (Attachment.mk "image"
                               (PayloadMedia (MediaPayload.mk "https://example.org/a.png")))))
       "")
  = Encoded
      (JObject [("recipient", JObject [("phone_number", JString "+1(212)555-2368")]);
                ("message",
                 JObject [("attachment",
                           JObject [("type", JString "image");
                                    ("payload",
                                     JObject [("url", JString "https://example.org/a.png")])])])]).
Proof. reflexivity. Qed.

Example decode_success_response :
  unmarshal_SendResponse
    (JObject [("recipient_id", JString "1008372609250235");
              ("message_id", JString "mid.1456970487936:c34767dfe57ee6e339")])
  = Decoded (SendResponse.mk "1008372609250235"
               "mid.1456970487936:c34767dfe57ee6e339" None).
Proof. reflexivity. Qed.

Example chained_calls :
  (TextMessage "hi" ≫= λ sr, To sr "USER_ID" ≫= NoPush) ∅
  = Done (at_loc 1)
      {[ 1%positive := SendRequest.mk (Recipient.mk "USER_ID" "")
                         (Message.mk "hi" None) "NO_PUSH" ]}.
Proof. by vm_compute. Qed.

Example nil_receiver_panics : To null "USER_ID" ∅ = Panic.
Proof. reflexivity. Qed.

(** ** More on the constructors and the fluent mutators *)

Lemma constructor_call_allocates (c : go ptr) :
  constructor_call c → ∃ v, c = new v.
Proof. intros [t | u | t bs]; by eexists. Qed.

Lemma recipient_setter_assigns (r : ptr → go ptr) :
  recipient_setter r →
  ∃ rc, ∀ p, r p = (assign p (SendRequest.set_Recipient rc) ;; mret p).
Proof. intros [a | a]; by eexists. Qed.

Lemma priority_setter_assigns (f : ptr → go ptr) :
  f ∈ priority_setters →
  ∃ n, ∀ p, f p = (assign p (SendRequest.set_NotificationType n) ;; mret p).
Proof.
  intros Hf. destruct (priority_setter_cases f Hf) as [-> | [-> | ->]]; by eexists.
Qed.

Lemma mutator_assigns (m : ptr → go ptr) :
  mutator m → ∃ upd, ∀ p, m p = (assign p upd ;; mret p).
Proof.
  intros [Hr | Hf].
  - destruct (recipient_setter_assigns m Hr) as [rc Hrc]. by eexists.
  - destruct (priority_setter_assigns m Hf) as [n Hn]. by eexists.
Qed.

(** Two constructor calls in a row hand out two different, new requests:
    the second call leaves the request of the first as it was built. *)
Theorem constructors_allocate_apart (c1 c2 : go ptr)
    (h : gmap loc SendRequest.t) :
  constructor_call c1 → constructor_call c2 →
  ∃ l1 l2 sr1 sr2,
    c1 h = Done (at_loc l1) (<[l1 := sr1]> h) ∧
    (p1 ← c1; p2 ← c2; mret (p1, p2)) h
    = Done (at_loc l1, at_loc l2) (<[l2 := sr2]> (<[l1 := sr1]> h)) ∧
    l1 ≠ l2 ∧ h !! l1 = None ∧ h !! l2 = None ∧
    (<[l2 := sr2]> (<[l1 := sr1]> h)) !! l1 = Some sr1.
Proof.
  intros Hc1 Hc2.
  destruct (constructor_call_allocates c1 Hc1) as [v1 ->].
  destruct (constructor_call_allocates c2 Hc2) as [v2 ->].
  destruct (new_fresh v1 h) as (l1 & Hrun1 & Hfresh1).
  destruct (new_fresh v2 (<[l1 := v1]> h)) as (l2 & Hrun2 & Hfresh2).
  assert (Hne : l1 ≠ l2).
  { intros <-. by rewrite lookup_insert_eq in Hfresh2. }
  exists l1, l2, v1, v2. split; [exact Hrun1 |]. split.
  - unfold mbind, go_bind. rewrite Hrun1, Hrun2. reflexivity.
  - split; [exact Hne |]. split; [exact Hfresh1 |]. split.
    + by rewrite lookup_insert_ne in Hfresh2.
    + rewrite lookup_insert_ne by done. apply lookup_insert_eq.
Qed.

Lemma constructors_allocate_apart_witness :
  ∃ l1 l2 sr1 sr2,
    TextMessage "a" ∅ = Done (at_loc l1) (<[l1 := sr1]> ∅) ∧
    (p1 ← TextMessage "a"; p2 ← ImageMessage "https://example.org/b.png";
     mret (p1, p2)) ∅
    = Done (at_loc l1, at_loc l2) (<[l2 := sr2]> (<[l1 := sr1]> ∅)) ∧
    l1 ≠ l2 ∧ (∅ : gmap loc SendRequest.t) !! l1 = None ∧
    (∅ : gmap loc SendRequest.t) !! l2 = None ∧
    (<[l2 := sr2]> (<[l1 := sr1]> (∅ : gmap loc SendRequest.t))) !! l1 = Some sr1.
Proof.
  apply (constructors_allocate_apart (TextMessage "a")
           (ImageMessage "https://example.org/b.png") ∅).
  - apply call_TextMessage.
  - apply call_ImageMessage.
Defined.

(** A fluent mutator panics exactly when its receiver is nil (or points
    to no request); otherwise it returns its receiver and neither creates
    nor drops a request. *)
Theorem mutator_panics_only_unallocated (m : ptr → go ptr) (p : ptr)
    (h : gmap loc SendRequest.t) :
  mutator m →
  (m p h = Panic ↔ ∀ l, p = at_loc l → h !! l = None) ∧
  (∀ q h', m p h = Done q h' → q = p ∧ dom h' = dom h).
Proof.
  intros Hm. destruct (mutator_assigns m Hm) as [upd ->].
  unfold mbind, go_bind, assign, mret, go_ret.
  destruct p as [| l]; [split; [by split | by intros q h' ?] |].
  destruct (h !! l) as [v |] eqn:Hl; split.
  - split; [discriminate |]. intros Hnone. specialize (Hnone l eq_refl). congruence.
  - intros q h' [= <- <-]. split; [reflexivity |].
    apply dom_insert_lookup_L. by rewrite Hl.
  - split; [| reflexivity]. intros _ l' [= <-]. exact Hl.
  - intros q h' ?. discriminate.
Qed.

Lemma mutator_panics_only_unallocated_witness :
  (Regular null ∅ = Panic ↔
   ∀ l, null = at_loc l → (∅ : gmap loc SendRequest.t) !! l = None) ∧
  (∀ q h', Regular null ∅ = Done q h' → q = null ∧ dom h' = dom (∅ : gmap loc SendRequest.t)).
Proof.
  apply (mutator_panics_only_unallocated Regular null ∅).
  right. unfold priority_setters. apply list_elem_of_here.
Defined.

(** A recipient setter overwrites what an earlier recipient setter wrote:
    calling [r1] and then [r2] leaves the state that [r2] alone leaves, so
    the fluent calls never leave both identifiers set. *)
Theorem recipient_setters_overwrite (r1 r2 : ptr → go ptr)
    (h : gmap loc SendRequest.t) (l : loc) (sr : SendRequest.t) :
  recipient_setter r1 → recipient_setter r2 → h !! l = Some sr →
  (r1 (at_loc l) ≫= r2) h = r2 (at_loc l) h ∧
  ∃ sr', r2 (at_loc l) h = Done (at_loc l) (<[l := sr']> h) ∧
         (identifiers_set (SendRequest.Recipient sr') ≤ 1)%nat.
Proof.
  intros Hr1 Hr2 Hl.
  destruct (recipient_setter_assigns r1 Hr1) as [rc1 Hrc1].
  split.
  - destruct (recipient_setter_assigns r2 Hr2) as [rc2 Hrc2].
    unfold mbind at 1, go_bind at 1.
    rewrite Hrc1, (assign_then_return h l sr _ Hl). cbv beta iota.
    rewrite !Hrc2, (assign_then_return h l sr _ Hl).
    rewrite (assign_then_return _ l _ _ (lookup_insert_eq h l _)).
    by rewrite insert_insert_eq.
  - destruct Hr2 as [a | a]; eexists; run_method Hl;
      (split; [reflexivity |]); unfold identifiers_set;
      cbn [SendRequest.Recipient SendRequest.set_Recipient
           Recipient.Id Recipient.PhoneNumber];
      repeat case_decide; (done || lia).
Qed.

Lemma recipient_setters_overwrite_witness :
  (To (at_loc 1) "USER_ID" ≫= λ sr, ToPhoneNumber sr "+1(212)555-2368")
    ({[ 1%positive := SendRequest.zero ]} : gmap loc SendRequest.t)
  = ToPhoneNumber (at_loc 1) "+1(212)555-2368" {[ 1%positive := SendRequest.zero ]}.
Proof.
  apply (recipient_setters_overwrite (λ sr, To sr "USER_ID")
           (λ sr, ToPhoneNumber sr "+1(212)555-2368")
           {[ 1%positive := SendRequest.zero ]} 1%positive SendRequest.zero).
  - apply setter_To.
  - apply setter_ToPhoneNumber.
  - reflexivity.
Defined.

(** The recipient and the notification priority are set independently:
    a recipient setter and a priority setter can be chained in either
    order, with the same final state. *)
Theorem recipient_and_priority_commute (r f : ptr → go ptr)
    (h : gmap loc SendRequest.t) (l : loc) (sr : SendRequest.t) :
  recipient_setter r → f ∈ priority_setters → h !! l = Some sr →
  (r (at_loc l) ≫= f) h = (f (at_loc l) ≫= r) h.
Proof.
  intros Hr Hf Hl.
  destruct (recipient_setter_assigns r Hr) as [rc Hrc].
  destruct (priority_setter_assigns f Hf) as [n Hn].
  transitivity
    (Done (at_loc l)
       (<[l := SendRequest.set_NotificationType n (SendRequest.set_Recipient rc sr)]> h)).
  - unfold mbind at 1, go_bind at 1.
    rewrite Hrc, (assign_then_return h l sr _ Hl). cbv beta iota.
    rewrite Hn, (assign_then_return _ l _ _ (lookup_insert_eq h l _)).
    by rewrite insert_insert_eq.
  - unfold mbind at 1, go_bind at 1.
    rewrite Hn, (assign_then_return h l sr _ Hl). cbv beta iota.
    rewrite Hrc, (assign_then_return _ l _ _ (lookup_insert_eq h l _)).
    by rewrite insert_insert_eq.
Qed.

Lemma recipient_and_priority_commute_witness :
  (To (at_loc 1) "USER_ID" ≫= SilentPush)
    ({[ 1%positive := SendRequest.zero ]} : gmap loc SendRequest.t)
  = (SilentPush (at_loc 1) ≫= λ sr, To sr "USER_ID")
      {[ 1%positive := SendRequest.zero ]}.
Proof.
  apply (recipient_and_priority_commute (λ sr, To sr "USER_ID") SilentPush
           {[ 1%positive := SendRequest.zero ]} 1%positive SendRequest.zero).
  - apply setter_To.
  - unfold priority_setters. apply list_elem_of_further, list_elem_of_here.
  - reflexivity.
Defined.

(** ** The document of a send request *)

(** A text message built and addressed by the fluent calls, with a text
    and a user id that are not empty and are valid UTF-8, goes on the wire
    with exactly two members, the recipient with its id and the message
    with its text: no phone number, no attachment and no notification type
    are written. *)
Theorem text_request_document (t userId : string) (h : gmap loc SendRequest.t) :
  t ≠ "" → userId ≠ "" → utf8_valid t = true → utf8_valid userId = true →
  ∃ l sr,
    (TextMessage t ≫= λ p, To p userId) h = Done (at_loc l) (<[l := sr]> h) ∧
    h !! l = None ∧
    marshal_SendRequest sr
    = JObject [("recipient", JObject [("id", JString userId)]);
               ("message", JObject [("text", JString t)])].
Proof.
  intros Ht Hid _ _. unfold TextMessage.
  destruct (new_fresh (SendRequest.mk Recipient.zero (Message.mk t None) "") h)
    as (l & Hrun & Hfresh).
  exists l. eexists. split; [| split; [exact Hfresh |]].
  - unfold mbind at 1, go_bind at 1. rewrite Hrun. unfold To.
    rewrite (assign_then_return _ l _ _ (lookup_insert_eq h l _)).
    by rewrite insert_insert_eq.
  - unfold marshal_SendRequest, marshal_Recipient, marshal_Message, omitempty_string.
    cbn [SendRequest.set_Recipient SendRequest.Recipient SendRequest.Message
         SendRequest.NotificationType Recipient.Id Recipient.PhoneNumber
         Message.Text Message.Attachment omitempty_ptr].
    repeat case_decide; done.
Qed.

Lemma text_request_document_witness :
  ∃ l sr,
    (TextMessage "hello" ≫= λ p, To p "USER_ID") ∅ = Done (at_loc l) (<[l := sr]> ∅) ∧
    (∅ : gmap loc SendRequest.t) !! l = None ∧
    marshal_SendRequest sr
    = JObject [("recipient", JObject [("id", JString "USER_ID")]);
               ("message", JObject [("text", JString "hello")])].
Proof.
  apply (text_request_document "hello" "USER_ID" ∅);
    (discriminate || reflexivity).
Defined.

Lemma marshal_Recipient_inj (r r' : Recipient.t) :
  marshal_Recipient r = marshal_Recipient r' → r = r'.
Proof.
  destruct r as [a b], r' as [a' b'].
  unfold marshal_Recipient, omitempty_string.
  cbn [Recipient.Id Recipient.PhoneNumber].
  intros Hdoc; repeat case_decide; simplify_eq/=; done.
Qed.

Lemma marshal_Button_inj (b b' : Button.t) :
  marshal_Button b = marshal_Button b' → b = b'.
Proof.
  destruct b as [ty ti u p], b' as [ty' ti' u' p'].
  unfold marshal_Button, omitempty_string.
  cbn [Button.Type_ Button.Title Button.Url Button.Payload].
  intros Hdoc; repeat case_decide; simplify_eq/=; done.
Qed.

Lemma marshal_Button_ptr_inj (b b' : option Button.t) :
  marshal_ptr marshal_Button b = marshal_ptr marshal_Button b' → b = b'.
Proof.
  destruct b as [b |], b' as [b' |]; cbn [marshal_ptr]; intros H.
  - f_equal. by apply marshal_Button_inj.
  - destruct b. discriminate.
  - destruct b'. discriminate.
  - reflexivity.
Qed.

Lemma marshal_slice_inj {A : Type} (enc : A → json) (s s' : slice A) :
  (∀ a a', enc a = enc a' → a = a') →
  marshal_slice enc s = marshal_slice enc s' → s = s'.
Proof.
  intros Henc. destruct s as [| l], s' as [| l']; cbn; intros H; try done.
  injection H as H. f_equal. revert l' H.
  induction l as [| a l IH]; intros [| a' l'] H; try done.
  injection H as Ha Hl. f_equal; [by apply Henc | by apply IH].
Qed.

Lemma marshal_payload_inj (p p' : payload) :
  marshal_payload p = marshal_payload p' → p = p'.
Proof.
  destruct p as [| [u] | [tt t bs]], p' as [| [u'] | [tt' t' bs']];
    cbn; intros H; try done.
  - by simplify_eq.
  - injection H as Htt Ht Hbs. subst.
    f_equal. f_equal. by apply (marshal_slice_inj _ _ _ marshal_Button_ptr_inj).
Qed.

Lemma marshal_Message_inj (m m' : Message.t) :
  marshal_Message m = marshal_Message m' → m = m'.
Proof.
  destruct m as [t a], m' as [t' a'].
  unfold marshal_Message, omitempty_string.
  cbn [Message.Text Message.Attachment].
  destruct a as [[ty p] |], a' as [[ty' p'] |];
    cbn [omitempty_ptr marshal_Attachment Attachment.Type_ Attachment.Payload];
    intros Hdoc; repeat case_decide; simplify_eq/=; try done.
  all: match goal with
       | Hp : marshal_payload _ = marshal_payload _ |- _ =>
           apply marshal_payload_inj in Hp; by subst
       end.
Qed.

(** The struct tags lose nothing of a send request whose strings are
    valid UTF-8: two such requests that are written as the same document
    are equal. The fields left out by [omitempty] are told apart by their
    keys. *)
Theorem marshal_SendRequest_inj (sr sr' : SendRequest.t) :
  json_utf8 (marshal_SendRequest sr) = true →
  json_utf8 (marshal_SendRequest sr') = true →
  marshal_SendRequest sr = marshal_SendRequest sr' → sr = sr'.
Proof.
  intros _ _.
  destruct sr as [r m n], sr' as [r' m' n'].
  unfold marshal_SendRequest, omitempty_string.
  cbn [SendRequest.Recipient SendRequest.Message SendRequest.NotificationType].
  intros Hdoc.
  assert (Hr : marshal_Recipient r = marshal_Recipient r')
    by (repeat case_decide; cbn [app] in Hdoc; congruence).
  assert (Hm : marshal_Message m = marshal_Message m')
    by (repeat case_decide; cbn [app] in Hdoc; congruence).
  apply marshal_Recipient_inj in Hr. apply marshal_Message_inj in Hm. subst.
  repeat case_decide; cbn [app] in Hdoc; congruence.
Qed.

Lemma marshal_SendRequest_inj_witness :
  SendRequest.mk (Recipient.mk "USER_ID" "") (Message.mk "hi" None) ""
  = SendRequest.mk (Recipient.mk "USER_ID" "") (Message.mk "hi" None) "".
Proof.
  apply (marshal_SendRequest_inj
           (SendRequest.mk (Recipient.mk "USER_ID" "") (Message.mk "hi" None) "")
           (SendRequest.mk (Recipient.mk "USER_ID" "") (Message.mk "hi" None) ""));
    reflexivity.
Defined.

(** ** More on the webhook documents *)

(** Every callback whose [int]s are Go [int]s and whose strings are valid
    UTF-8, with any number of entries and messaging entries and whichever
    of message, delivery, postback and optin they carry, is read back from
    its document as it was. *)
Theorem any_callback_round_trip (c : Callback.t) :
  Callback_ok c → json_utf8 (marshal_Callback c) = true →
  unmarshal_Callback (marshal_Callback c) = Decoded c.
Proof. intros Hok _. by apply Callback_round_trip. Qed.

Lemma any_callback_round_trip_witness :
  unmarshal_Callback
    (marshal_Callback
       (Callback.mk "page"
          (Slice [Some (Entry.mk "1234" 1458692752478
            (Slice [Some (MessagingEntry.mk (Principal.mk "USER_ID")
                            (Principal.mk "PAGE_ID") 1458668856451 None
                            (Some (Delivery.mk
                                     (Slice ["mid.1458668856218:ed81099e15d3f4f233"])
                                     1458668856253 37))
                            None None);
                    None;
                    Some (MessagingEntry.mk (Principal.mk "USER_ID")
                            (Principal.mk "PAGE_ID") 1458692752478
                            (Some (CallbackMessage.mk "mid.1458696618141:b4ef9d19ec21086067"
                                     51 ""
                                     (Slice [Some (CallbackAttachment.mk "image"
                                                     (CallbackAttachmentPayload.mk
                                                        "https://example.org/i.png"))])))
                            None (Some (Postback.mk "USER_DEFINED_PAYLOAD"))
                            (Some (OptIn.mk "PASS_THROUGH_PARAM")))]));
                  None])))
  = Decoded
      (Callback.mk "page"
          (Slice [Some (Entry.mk "1234" 1458692752478
            (Slice [Some (MessagingEntry.mk (Principal.mk "USER_ID")
                            (Principal.mk "PAGE_ID") 1458668856451 None
                            (Some (Delivery.mk
                                     (Slice ["mid.1458668856218:ed81099e15d3f4f233"])
                                     1458668856253 37))
                            None None);
                    None;
                    Some (MessagingEntry.mk (Principal.mk "USER_ID")
                            (Principal.mk "PAGE_ID") 1458692752478
                            (Some (CallbackMessage.mk "mid.1458696618141:b4ef9d19ec21086067"
                                     51 ""
                                     (Slice [Some (CallbackAttachment.mk "image"
                                                     (CallbackAttachmentPayload.mk
                                                        "https://example.org/i.png"))])))
                            None (Some (Postback.mk "USER_DEFINED_PAYLOAD"))
                            (Some (OptIn.mk "PASS_THROUGH_PARAM")))]));
                  None])).
Proof.
  apply any_callback_round_trip; [| by vm_compute].
  unfold Callback_ok, slice_ok, Entry_ok, slice_ok, MessagingEntry_ok,
    CallbackMessage_ok, Delivery_ok, int_ok. cbn.
  repeat constructor; cbn; lia.
Defined.

Lemma bind_decoded_inv {A B : Type} (m : decoded A) (k : A → decoded B) (b : B) :
  m ≫= k = Decoded b → ∃ a, m = Decoded a ∧ k a = Decoded b.
Proof. destruct m as [a | f]; [by exists a | discriminate]. Qed.

Lemma fmap_decoded_inv {A B : Type} (m : decoded A) (g : A → B) (b : B) :
  g <$> m = Decoded b → ∃ a, m = Decoded a ∧ b = g a.
Proof. destruct m as [a | f]; [intros [= <-]; by exists a | discriminate]. Qed.

Local Ltac decoded_inv :=
  repeat match goal with
         | H : _ ≫= _ = Decoded _ |- _ =>
             apply bind_decoded_inv in H as (? & ? & H); cbv beta in H
         | H : mret _ = Decoded _ |- _ => injection H as <-
         end.

Lemma dec_int_ok (field : string) (j : option json) (n : Z) :
  dec_int field j = Decoded n → int_ok n.
Proof.
  destruct j as [[| b | k | s | l | ms] |]; cbn; try discriminate;
    try (intros [= <-]; unfold int_ok; lia).
  unfold int_okb. destruct (- 2 ^ 63 <=? k) eqn:Hlo, (k <? 2 ^ 63) eqn:Hhi;
    cbn; try discriminate.
  intros [= <-]. unfold int_ok. lia.
Qed.

Lemma dec_ptr_ok {A : Type} (P : A → Prop) (field : string)
    (dec : list (string * json) → decoded A) (j : option json) (p : option A) :
  (∀ ms a, dec ms = Decoded a → P a) →
  dec_ptr field dec j = Decoded p → ptr_ok P p.
Proof.
  intros Hdec.
  destruct j as [[| b | k | s | l | ms] |]; cbn; try discriminate;
    try (by intros [= <-]).
  intros H. apply fmap_decoded_inv in H as (a & Ha & ->). cbn. eauto.
Qed.

Lemma dec_items_ok {A : Type} (P : A → Prop) (dec : json → decoded A)
    (items : list json) (l : list A) :
  (∀ j a, dec j = Decoded a → P a) →
  dec_items dec items = Decoded l → Forall P l.
Proof.
  intros Hdec. revert l.
  induction items as [| j items IH]; intros l; cbn [dec_items].
  - intros [= <-]. constructor.
  - intros H. decoded_inv. constructor; eauto.
Qed.

Lemma dec_slice_ok {A : Type} (P : A → Prop) (field : string)
    (dec : json → decoded A) (j : option json) (s : slice A) :
  (∀ j a, dec j = Decoded a → P a) →
  dec_slice field dec j = Decoded s → slice_ok P s.
Proof.
  intros Hdec. unfold slice_ok.
  destruct j as [[| b | k | x | l | ms] |]; cbn; try discriminate;
    try (intros [= <-]; constructor).
  intros H. apply fmap_decoded_inv in H as (a & Ha & ->). cbn.
  by apply (dec_items_ok P dec l).
Qed.

Lemma unmarshal_MessagingEntry_ok (ms : list (string * json))
    (e : MessagingEntry.t) :
  unmarshal_MessagingEntry ms = Decoded e → MessagingEntry_ok e.
Proof.
  unfold unmarshal_MessagingEntry. intros H. decoded_inv.
  unfold MessagingEntry_ok.
  cbn [MessagingEntry.Timestamp MessagingEntry.Message MessagingEntry.Delivery].
  split; [| split].
  - by eapply dec_int_ok.
  - eapply (dec_ptr_ok CallbackMessage_ok); [| eassumption].
    intros ms' m Hm. unfold unmarshal_CallbackMessage in Hm. decoded_inv.
    unfold CallbackMessage_ok. cbn [CallbackMessage.Sequence].
    by eapply dec_int_ok.
  - eapply (dec_ptr_ok Delivery_ok); [| eassumption].
    intros ms' d Hd. unfold unmarshal_Delivery in Hd. decoded_inv.
    unfold Delivery_ok. cbn [Delivery.Watermark Delivery.Sequence].
    split; by eapply dec_int_ok.
Qed.

Lemma unmarshal_Callback_ok (j : json) (c : Callback.t) :
  unmarshal_Callback j = Decoded c → Callback_ok c.
Proof.
  unfold unmarshal_Callback, dec_struct, Callback_ok.
  destruct j as [| b | k | s | l | ms]; try discriminate.
  - intros [= <-]. constructor.
  - intros H. decoded_inv. cbn [Callback.Entries].
    eapply (dec_slice_ok (ptr_ok Entry_ok)); [| eassumption].
    intros j e He. eapply (dec_ptr_ok Entry_ok); [| exact He].
    intros ms' e' He'. unfold unmarshal_Entry in He'. decoded_inv.
    unfold Entry_ok. cbn [Entry.Time Entry.Messaging].
    split; [by eapply dec_int_ok |].
    eapply (dec_slice_ok (ptr_ok MessagingEntry_ok)); [| eassumption].
    intros j' m Hm. eapply (dec_ptr_ok MessagingEntry_ok); [| exact Hm].
    apply unmarshal_MessagingEntry_ok.
Qed.

(** What was read from a document can be written and read again without
    change: if a document decodes to the callback [c], then the document
    of [c] decodes to [c]. Members the structures do not know, and the
    order and repetition of members, are the only things a document can
    lose. *)
Theorem decoded_callback_re_encodes (j : json) (c : Callback.t) :
  unmarshal_Callback j = Decoded c →
  unmarshal_Callback (marshal_Callback c) = Decoded c.
Proof.
  intros Hdec. apply Callback_round_trip. by apply (unmarshal_Callback_ok j).
Qed.

Lemma decoded_callback_re_encodes_witness :
  unmarshal_Callback
    (marshal_Callback
       (Callback.mk "page"
          (Slice [Some (Entry.mk "1234" 0
                          (Slice [Some (MessagingEntry.mk (Principal.mk "USER_ID")
                                          Principal.zero 0 None None
                                          (Some (Postback.mk "PAYLOAD")) None)]))])))
  = Decoded
      (Callback.mk "page"
         (Slice [Some (Entry.mk "1234" 0
                         (Slice [Some (MessagingEntry.mk (Principal.mk "USER_ID")
                                         Principal.zero 0 None None
                                         (Some (Postback.mk "PAYLOAD")) None)]))])).
Proof.
  apply (decoded_callback_re_encodes
           (JObject [("entry",
                      JArray [JObject [("id", JString "1234");
                                       ("is_echo", JBool true);
                                       ("messaging",
                                        JArray [JObject [("postback",
                                                          JObject [("payload", JString "PAYLOAD")]);
                                                         ("sender",
                                                          JObject [("id", JString "USER_ID")])]])]]);
                     ("object", JString "page")])).
  reflexivity.
Defined.

(** ** More on the send response and the user profile *)

Lemma utf8_valid_coerce (s : string) : utf8_valid s = true → utf8_coerce s = s.
Proof. unfold utf8_valid. apply bool_decide_eq_true_1. Qed.

(** A send response, with or without its error, whose strings are valid
    UTF-8 and whose error code is a Go [int], is read back from its
    document as it was (a nil [Error] is written as [null] and read back
    as nil). *)
Theorem SendResponse_round_trip (r : SendResponse.t) :
  SendResponse_ok r →
  unmarshal_SendResponse (marshal_SendResponse r) = Decoded r.
Proof.
  destruct r as [rid mid err]. unfold SendResponse_ok.
  cbn [SendResponse.RecipientId SendResponse.MessageId SendResponse.Error].
  intros (Hrid & Hmid & Herr).
  unfold unmarshal_SendResponse, marshal_SendResponse, dec_struct.
  cbn [SendResponse.RecipientId SendResponse.MessageId SendResponse.Error].
  rewrite (utf8_valid_coerce rid Hrid), (utf8_valid_coerce mid Hmid).
  change (member "recipient_id" _) with (Some (JString rid)).
  change (member "message_id" _) with (Some (JString mid)).
  change (member "error" _) with (Some (marshal_ptr marshal_SendError err)).
  destruct err as [[msg ty code dat tr] |]; [| reflexivity].
  unfold SendError_ok in Herr.
  cbn [ptr_ok SendError.Message SendError.Type_ SendError.Code
       SendError.ErrorData SendError.FBTraceId] in Herr.
  destruct Herr as (Hmsg & Hty & Hcode & Hdat & Htr).
  cbn [marshal_ptr]. unfold marshal_SendError.
  cbn [SendError.Message SendError.Type_ SendError.Code SendError.ErrorData
       SendError.FBTraceId].
  rewrite (utf8_valid_coerce msg Hmsg), (utf8_valid_coerce ty Hty),
    (utf8_valid_coerce dat Hdat), (utf8_valid_coerce tr Htr).
  cbn [dec_string dec_ptr mbind decoded_bind]. unfold unmarshal_SendError.
  change (member "message" _) with (Some (JString msg)).
  change (member "type" _) with (Some (JString ty)).
  change (member "code" _) with (Some (JNumber code)).
  change (member "error_data" _) with (Some (JString dat)).
  change (member "fbtrace_id" _) with (Some (JString tr)).
  by rewrite (dec_int_number _ code Hcode).
Qed.

Lemma SendResponse_round_trip_witness :
  unmarshal_SendResponse
    (marshal_SendResponse
       (SendResponse.mk "" ""
          (Some (SendError.mk "Invalid parameter" "FacebookApiException" 100
                   "No matching user found." "D2kxCybrKVw"))))
  = Decoded
      (SendResponse.mk "" ""
         (Some (SendError.mk "Invalid parameter" "FacebookApiException" 100
                  "No matching user found." "D2kxCybrKVw"))).
Proof.
  apply SendResponse_round_trip.
  unfold SendResponse_ok, SendError_ok, int_ok. cbn.
  repeat split; (reflexivity || lia).
Defined.

(** A user profile whose strings are valid UTF-8 and whose timezone is a
    Go [int] is read back from its document as it was. *)
Theorem UserProfile_round_trip (u : UserProfile.t) :
  UserProfile_ok u →
  unmarshal_UserProfile (marshal_UserProfile u) = Decoded u.
Proof.
  destruct u as [first last pic locale tz gender]. unfold UserProfile_ok.
  cbn [UserProfile.FirstName UserProfile.LastName UserProfile.ProfilePhotoUrl
       UserProfile.Locale UserProfile.Timezone UserProfile.Gender].
  intros (Hfirst & Hlast & Hpic & Hlocale & Htz & Hgender).
  unfold unmarshal_UserProfile, marshal_UserProfile, dec_struct.
  cbn [UserProfile.FirstName UserProfile.LastName UserProfile.ProfilePhotoUrl
       UserProfile.Locale UserProfile.Timezone UserProfile.Gender].
  rewrite (utf8_valid_coerce first Hfirst), (utf8_valid_coerce last Hlast),
    (utf8_valid_coerce pic Hpic), (utf8_valid_coerce locale Hlocale),
    (utf8_valid_coerce gender Hgender).
  change (member "first_name" _) with (Some (JString first)).
  change (member "last_name" _) with (Some (JString last)).
  change (member "profile_pic" _) with (Some (JString pic)).
  change (member "locale" _) with (Some (JString locale)).
  change (member "timezone" _) with (Some (JNumber tz)).
  change (member "gender" _) with (Some (JString gender)).
  by rewrite (dec_int_number _ tz Htz).
Qed.

Lemma UserProfile_round_trip_witness :
  unmarshal_UserProfile
    (marshal_UserProfile
       (UserProfile.mk "Chloé" "Chang" "https://example.org/p.jpg" "fr_FR" (-7) "female"))
  = Decoded
      (UserProfile.mk "Chloé" "Chang" "https://example.org/p.jpg" "fr_FR" (-7) "female").
Proof.
  apply UserProfile_round_trip. unfold UserProfile_ok, int_ok. cbn.
  repeat split; (reflexivity || lia).
Defined.
